(** * LILY virtual companion: the conversational core of [models/ai_engine.py]

    A shallow embedding of [AIEngine.__init__], [AIEngine.build_prompt] and
    [AIEngine.generate_response], together with the Python string operations
    they rely on ([re.sub] with the pattern [<think>.*?</think>] under
    [re.DOTALL], [str.strip], [str.join]).

    Python [str] values are represented by their UTF-8 encoding, one [ascii]
    per byte, which is what a Rocq string literal denotes. *)

From Stdlib Require Import String Ascii List Lia Arith.
From stdpp Require Import gmap strings list pretty.

Open Scope string_scope.
Open Scope list_scope.

(* ===================================================================== *)
(** ** Python strings *)
(* ===================================================================== *)

Module PyStr.

(** The line feed of the f-string and of ["\n".join]. *)
Definition nl : string := String "010"%char "".

(** [s[n:]] *)
Fixpoint drop (n : nat) (s : string) : string :=
  match n, s with
  | O, _ => s
  | S _, "" => ""
  | S k, String _ s' => drop k s'
  end.

(** [s.startswith(pat)] *)
Fixpoint starts_with (pat s : string) : bool :=
  match pat, s with
  | "", _ => true
  | String _ _, "" => false
  | String a pat', String b s' => Ascii.eqb a b && starts_with pat' s'
  end.

(** [s.find(pat)], with [None] for Python's [-1]: the number of bytes in
    front of the first occurrence of [pat]. *)
Fixpoint find (pat s : string) : option nat :=
  if starts_with pat s then Some O
  else match s with
       | "" => None
       | String _ s' => S <$> find pat s'
       end.

(** [c in s], for a single byte. *)
Fixpoint occurs (c : ascii) (s : string) : Prop :=
  match s with
  | "" => False
  | String a s' => a = c \/ occurs c s'
  end.

(** [sep.join(parts)] *)
Fixpoint join (sep : string) (parts : list string) : string :=
  match parts with
  | [] => ""
  | [p] => p
  | p :: ps => p +:+ sep +:+ join sep ps
  end.

(** *** Whitespace, as [str.isspace] sees it

    One-byte characters: U+0009..U+000D, U+001C..U+001F and U+0020. *)
Definition is_space1 (a : ascii) : bool :=
  let n := nat_of_ascii a in
  (((9 <=? n) && (n <=? 13)) || ((28 <=? n) && (n <=? 32)))%nat.

(** Two-byte characters: U+0085 (C2 85) and U+00A0 (C2 A0). *)
Definition is_space2 (a b : ascii) : bool :=
  ((nat_of_ascii a =? 194) &&
   ((nat_of_ascii b =? 133) || (nat_of_ascii b =? 160)))%nat.

(** Three-byte characters: U+1680 (E1 9A 80), U+2000..U+200A (E2 80 80..8A),
    U+2028, U+2029 (E2 80 A8, A9), U+202F (E2 80 AF), U+205F (E2 81 9F) and
    U+3000 (E3 80 80). *)
Definition is_space3 (a b c : ascii) : bool :=
  let x := nat_of_ascii a in
  let y := nat_of_ascii b in
  let z := nat_of_ascii c in
  (((x =? 225) && (y =? 154) && (z =? 128))
   || ((x =? 226) && (y =? 128) &&
       (((128 <=? z) && (z <=? 138)) || (z =? 168) || (z =? 169) || (z =? 175)))
   || ((x =? 226) && (y =? 129) && (z =? 159))
   || ((x =? 227) && (y =? 128) && (z =? 128)))%nat.

(** [s.lstrip()] *)
Fixpoint lstrip (s : string) : string :=
  match s with
  | "" => ""
  | String a s1 =>
    if is_space1 a then lstrip s1
    else match s1 with
         | "" => s
         | String b s2 =>
           if is_space2 a b then lstrip s2
           else match s2 with
                | "" => s
                | String c s3 => if is_space3 a b c then lstrip s3 else s
                end
         end
  end.

(** [s.isspace() or s == ""]: the whole of [s] is whitespace. *)
Definition all_space (s : string) : bool :=
  match lstrip s with "" => true | _ => false end.

(** [s.rstrip()]: cut where the all-whitespace suffix begins. *)
Fixpoint rstrip (s : string) : string :=
  match s with
  | "" => ""
  | String a s' => if all_space s then "" else String a (rstrip s')
  end.

(** [s.strip()] *)
Definition strip (s : string) : string := rstrip (lstrip s).

(** A character given by the bytes of its UTF-8 encoding. *)
Definition utf8 (bytes : list nat) : string :=
  string_of_list_ascii (map ascii_of_nat bytes).

(** The table of the 29 characters Python counts as whitespace
    ([str.isspace], the set [str.strip] removes), each by its UTF-8
    encoding: U+0009..U+000D, U+001C..U+001F, U+0020, U+0085, U+00A0,
    U+1680, U+2000..U+200A, U+2028, U+2029, U+202F, U+205F, U+3000. *)
Definition whitespace : list string :=
  [utf8 [9]; utf8 [10]; utf8 [11]; utf8 [12]; utf8 [13];
   utf8 [28]; utf8 [29]; utf8 [30]; utf8 [31]; utf8 [32];
   utf8 [194; 133]; utf8 [194; 160];
   utf8 [225; 154; 128];
   utf8 [226; 128; 128]; utf8 [226; 128; 129]; utf8 [226; 128; 130];
   utf8 [226; 128; 131]; utf8 [226; 128; 132]; utf8 [226; 128; 133];
   utf8 [226; 128; 134]; utf8 [226; 128; 135]; utf8 [226; 128; 136];
   utf8 [226; 128; 137]; utf8 [226; 128; 138];
   utf8 [226; 128; 168]; utf8 [226; 128; 169]; utf8 [226; 128; 175];
   utf8 [226; 129; 159];
   utf8 [227; 128; 128]].

(** A run of whitespace characters, one after the other. *)
Definition blank (chars : list string) : Prop :=
  Forall (fun c => In c whitespace) chars.

(** A printable ASCII character other than the blank. *)
Definition visible (a : ascii) : Prop :=
  33 <= nat_of_ascii a <= 126.

End PyStr.

(* ===================================================================== *)
(** ** Removal of the reasoning blocks *)
(* ===================================================================== *)

Module Think.

Definition think_open : string := "<think>".
Definition think_close : string := "</think>".

(** The match of [<think>.*?</think>] anchored at the head of [s], as its
    length: the opening marker, the shortest run of arbitrary characters
    (DOTALL: line feeds too) and the first closing marker after it. *)
Definition think_match (s : string) : option nat :=
  if PyStr.starts_with think_open s then
    (fun k => 7 + k + 8) <$> PyStr.find think_close (PyStr.drop 7 s)
  else None.

(** [re.sub(r'<think>.*?</think>', '', s, flags=re.DOTALL)]: scan from the
    left; where the pattern matches, emit nothing and resume right after the
    match ([skip] counts the bytes of the match still to pass over);
    elsewhere copy one byte. *)
Fixpoint re_sub_from (skip : nat) (s : string) : string :=
  match s with
  | "" => ""
  | String c s' =>
    match skip with
    | S k => re_sub_from k s'
    | O =>
      match think_match s with
      | Some n => re_sub_from (Nat.pred n) s'
      | None => String c (re_sub_from 0 s')
      end
    end
  end.

Definition re_sub_think (s : string) : string := re_sub_from 0 s.

(** Lines 160-163 of [generate_response]. *)
Definition sanitize (raw : string) : string :=
  PyStr.strip (re_sub_think raw).

End Think.

(* ===================================================================== *)
(** ** Exceptions and the state of the engine *)
(* ===================================================================== *)

(** The exceptions [generate_response] tells apart: [except
    requests.exceptions.Timeout] and [except Exception as e], the latter
    with [str(e)]. *)
Inductive exn : Type :=
| Timeout
| Error (msg : string).

(** What a Python call does: it returns a value or raises. *)
Inductive outcome (A : Type) : Type :=
| Return (a : A)
| Raise (e : exn).
Arguments Return {A} a.
Arguments Raise {A} e.

(** Modelled from the spec: [models/schemas.py] is missing. [EmotionType] is
    the fixed set of emotion labels; the source names [NEUTRAL] and
    [PREOCUPADA] (the spec's Neutral and Worried), the other members carry
    the names of the spec's list. *)
Inductive EmotionType : Type :=
| NEUTRAL
| HAPPY
| PREOCUPADA
| SAD
| EXCITED.

(** A chat message, the [{"role": ..., "content": ...}] dictionaries of
    [build_prompt]. *)
Record Message : Type := { role : string; content : string }.

(** The [requests.Response] as far as [generate_response] reads it: the
    status code, and what [response.json()["message"]["content"]] does
    (decoding or indexing may raise). *)
Record Response : Type := {
  status_code : nat;
  message_content : outcome string
}.

(** The network: [requests.post(url, json={"model": ..., "messages": ...,
    ...}, timeout=60)] returns a response or raises. *)
Definition http_post : Type := string -> string -> list Message -> outcome Response.

(** Python floats are only carried around and formatted ([f"{x:.2f}"]). *)
Class PyFloat : Type := {
  float : Type;
  format_2f : float -> string
}.

Section Engine.
Context {F : PyFloat}.

(** Modelled from the spec: [EmotionalState] of the missing
    [models/schemas.py], the spec's EmotionalStateRecord. The timestamp is
    left out: [ai_engine.py] never reads it. *)
Record EmotionalState : Type := {
  emotion : EmotionType;
  intensity : float;
  reason : string
}.

(** Modelled from the spec: a stored turn of the missing
    [models/memory_system.py], the spec's DialogueTurn (timestamp left
    out as above). *)
Record DialogueTurn : Type := {
  turn_role : string;
  turn_content : string;
  turn_emotion : option string
}.

(** Modelled from the spec: the spec's UserMemory, an ordered sequence of
    turns and an ordered emotional timeline, oldest first. *)
Record UserMemory : Type := {
  history : list DialogueTurn;
  emotional_timeline : list EmotionalState
}.

(** What the spec leaves open about the three collaborators whose sources
    are missing ([emotional_intelligence.py], [memory_system.py],
    [rag_engine.py]) and about [EmotionType.value]. *)
Class Collaborators : Type := {
  (** [EmotionType.value] *)
  emotion_value : EmotionType -> string;
  (** the state a fresh [EmotionalIntelligence()] starts in *)
  initial_state : EmotionalState;
  (** the classification policy of [update]: utterance and previous state
      to the new record *)
  classify : string -> EmotionalState -> EmotionalState;
  (** the directive text of [getModifier] *)
  modifier_text : EmotionalState -> string;
  (** the digests of [getConversationSummary] and [getEmotionalSummary] *)
  conversation_digest : UserMemory -> string;
  emotional_digest : UserMemory -> string;
  (** the similarity ranking of [query], most relevant first *)
  rank : string -> list string -> list string;
  (** the entry [addConversationTurn] derives from a turn pair *)
  entry_text : string -> string -> string
}.

Context {C : Collaborators}.

(** The fields of [AIEngine] (the wake-word fields, which neither
    [build_prompt] nor [generate_response] touches, are left out).
    [emotional_intelligence] is the [current_state] slot of the
    [EmotionalIntelligence] object, [memory_system] the per-user store,
    [rag_engine] the entries of the index or [None]. *)
Record AIEngine : Type := {
  ollama_url : string;
  model : string;
  emotional_intelligence : EmotionalState;
  memory_system : gmap string UserMemory;
  rag_engine : option (list string);
  base_system_prompt : string
}.

(** *** Stateful, fallible computations over the engine *)

Definition M (A : Type) : Type := AIEngine -> outcome A * AIEngine.

Definition ret {A} (a : A) : M A := fun st => (Return a, st).

(** Sequencing: a raised exception skips the rest. *)
Definition bind {A B} (m : M A) (k : A -> M B) : M B :=
  fun st =>
    match m st with
    | (Return a, st') => k a st'
    | (Raise e, st') => (Raise e, st')
    end.

#[export] Instance M_ret : MRet M := @ret.
#[export] Instance M_bind : MBind M := fun A B k m => bind m k.

Definition get : M AIEngine := fun st => (Return st, st).

Definition modify (f : AIEngine -> AIEngine) : M unit :=
  fun st => (Return tt, f st).

Definition lift {A} (o : outcome A) : M A := fun st => (o, st).

(** [try: body except ...: handler]; what [body] did to the state before
    it raised stays done. *)
Definition try_except {A} (body : M A) (handler : exn -> M A) : M A :=
  fun st =>
    match body st with
    | (Return a, st') => (Return a, st')
    | (Raise e, st') => handler e st'
    end.

End Engine.

Arguments EmotionalState : clear implicits.
Arguments EmotionalState {F}.
Arguments DialogueTurn : clear implicits.
Arguments UserMemory : clear implicits.
Arguments UserMemory {F}.
Arguments Collaborators : clear implicits.
Arguments Collaborators {F}.
Arguments AIEngine : clear implicits.
Arguments AIEngine {F}.

(* ===================================================================== *)
(** ** The collaborators *)
(* ===================================================================== *)

Section Collaborators.
Context {F : PyFloat} {C : Collaborators}.

(** *** EmotionalIntelligence *)

(** Modelled from the spec: [update_emotional_state] of the missing
    [models/emotional_intelligence.py]. It derives the new record from
    the utterance and the previous state, overwrites the single
    current-state slot with it and returns it; it cannot fail. *)
Definition update_emotional_state (user_message : string) : M EmotionalState :=
  st ← get;
  let new_state := classify user_message (emotional_intelligence st) in
  modify (fun st =>
            {| ollama_url := ollama_url st;
               model := model st;
               emotional_intelligence := new_state;
               memory_system := memory_system st;
               rag_engine := rag_engine st;
               base_system_prompt := base_system_prompt st |});;
  ret new_state.

(** Modelled from the spec: [get_emotional_modifier] of the missing
    [models/emotional_intelligence.py], a text determined by the current
    state. *)
Definition get_emotional_modifier : M string :=
  st ← get;
  ret (modifier_text (emotional_intelligence st)).

(** [self.emotional_intelligence.current_state] *)
Definition current_state : M EmotionalState :=
  st ← get;
  ret (emotional_intelligence st).

(** *** MemorySystem *)

Definition empty_memory : UserMemory :=
  {| history := []; emotional_timeline := [] |}.

(** The memory of a user; a user never referred to has the empty one. *)
Definition user_memory (mem : gmap string UserMemory) (user_id : string) : UserMemory :=
  default empty_memory (mem !! user_id).

Definition set_memory (f : gmap string UserMemory -> gmap string UserMemory) : M unit :=
  modify (fun st =>
            {| ollama_url := ollama_url st;
               model := model st;
               emotional_intelligence := emotional_intelligence st;
               memory_system := f (memory_system st);
               rag_engine := rag_engine st;
               base_system_prompt := base_system_prompt st |}).

(** Modelled from the spec: [add_message] of the missing
    [models/memory_system.py] appends one turn to the user's sequence. *)
Definition add_message (user_id role content : string) (emotion_label : option string)
  : M unit :=
  set_memory (fun mem =>
    let um := user_memory mem user_id in
    <[user_id :=
        {| history := history um ++
                      [{| turn_role := role; turn_content := content;
                          turn_emotion := emotion_label |}];
           emotional_timeline := emotional_timeline um |}]> mem).

(** Modelled from the spec: [add_emotional_state] of the missing
    [models/memory_system.py] appends one record to the user's emotional
    timeline. *)
Definition add_emotional_state (user_id : string) (record : EmotionalState) : M unit :=
  set_memory (fun mem =>
    let um := user_memory mem user_id in
    <[user_id :=
        {| history := history um;
           emotional_timeline := emotional_timeline um ++ [record] |}]> mem).

(** The last [n] elements of a list, oldest first. *)
Definition last_n {A} (n : nat) (l : list A) : list A :=
  List.skipn (length l - n) l.

(** Modelled from the spec: [get_conversation_context] of the missing
    [models/memory_system.py] returns the most recent [max_messages]
    turns, oldest first, all of them when there are fewer; a pure read. *)
Definition get_conversation_context (user_id : string) (max_messages : nat)
  : M (list DialogueTurn) :=
  st ← get;
  ret (last_n max_messages (history (user_memory (memory_system st) user_id))).

(** Modelled from the spec: [get_emotional_summary] and
    [get_conversation_summary] of the missing [models/memory_system.py],
    digests of the user's memory; pure reads that do not fail for an
    unknown user. *)
Definition get_emotional_summary (user_id : string) : M string :=
  st ← get;
  ret (emotional_digest (user_memory (memory_system st) user_id)).

Definition get_conversation_summary (user_id : string) : M string :=
  st ← get;
  ret (conversation_digest (user_memory (memory_system st) user_id)).

(** *** RAGEngine *)

(** Modelled from the spec: [query] of the missing [models/rag_engine.py]
    returns up to [n_results] stored snippets, most relevant first, and
    never fails the caller. *)
Definition query (entries : list string) (text : string) (n_results : nat) : list string :=
  List.firstn n_results (rank text entries).

(** Modelled from the spec: [add_conversation_turn] of the missing
    [models/rag_engine.py] stores one entry derived from the pair;
    append-only. *)
Definition add_conversation_turn (entries : list string)
    (user_text assistant_text : string) : list string :=
  entries ++ [entry_text user_text assistant_text].

Definition set_rag (r : option (list string)) : M unit :=
  modify (fun st =>
            {| ollama_url := ollama_url st;
               model := model st;
               emotional_intelligence := emotional_intelligence st;
               memory_system := memory_system st;
               rag_engine := r;
               base_system_prompt := base_system_prompt st |}).

End Collaborators.

(* ===================================================================== *)
(** ** AIEngine *)
(* ===================================================================== *)

Section AIEngine.
Context {F : PyFloat} {C : Collaborators}.

(** [AIEngine.__init__], lines 15-47, given what the constructor
    [RAGEngine()] and the reading of [system_prompt.txt] did. A failed
    constructor leaves [rag_engine = None], a failed read the empty
    persona. The wake-word part (lines 26-35) is left out. *)
Definition init (ollama_url : string) (rag_ctor : outcome (list string))
    (prompt_file : outcome string) : AIEngine :=
  {| ollama_url := ollama_url;
     model := "qwen3-coder:480b-cloud";
     emotional_intelligence := initial_state;
     memory_system := ∅;
     rag_engine := match rag_ctor with
                   | Return r => Some r
                   | Raise _ => None
                   end;
     base_system_prompt := match prompt_file with
                           | Return text => text
                           | Raise _ => ""
                           end |}.

(** Lines 98-103 of [build_prompt]: the retrieval segment. An absent
    engine and an empty result ([if rag_docs:]) both leave it empty. *)
Definition rag_context_of (rag : option (list string)) (user_message : string) : string :=
  match rag with
  | None => ""
  | Some entries =>
    match query entries user_message 2 with
    | [] => ""
    | rag_docs =>
      "INFORMACIÓN RELEVANTE RECUPERADA:" +:+ PyStr.nl +:+
      PyStr.join PyStr.nl rag_docs +:+ PyStr.nl
    end
  end.

(** Lines 106-116 of [build_prompt]: the f-string of the system prompt. *)
Definition system_prompt_text (base emotional_modifier : string)
    (emotional_state : EmotionalState)
    (conversation_summary emotional_summary rag_context : string) : string :=
  base +:+ PyStr.nl +:+
  PyStr.nl +:+
  "CONTEXTO EMOCIONAL ACTUAL:" +:+ PyStr.nl +:+
  emotional_modifier +:+ PyStr.nl +:+
  "Tu emoción actual: " +:+ emotion_value (emotion emotional_state) +:+
  " (intensidad: " +:+ format_2f (intensity emotional_state) +:+ ")" +:+ PyStr.nl +:+
  "Razón: " +:+ reason emotional_state +:+ PyStr.nl +:+
  PyStr.nl +:+
  "MEMORIA DE CONVERSACIÓN:" +:+ PyStr.nl +:+
  conversation_summary +:+ PyStr.nl +:+
  emotional_summary +:+ PyStr.nl +:+
  rag_context.

Definition turn_message (msg : DialogueTurn) : Message :=
  {| role := turn_role msg; content := turn_content msg |}.

(** [AIEngine.build_prompt], lines 83-131. *)
Definition build_prompt (user_message user_id : string) : M (list Message) :=
  emotional_state ← update_emotional_state user_message;
  add_emotional_state user_id emotional_state;;
  emotional_modifier ← get_emotional_modifier;
  conversation_context ← get_conversation_context user_id 6;
  emotional_summary ← get_emotional_summary user_id;
  conversation_summary ← get_conversation_summary user_id;
  st ← get;
  let rag_context := rag_context_of (rag_engine st) user_message in
  let system_prompt :=
    system_prompt_text (base_system_prompt st) emotional_modifier emotional_state
                       conversation_summary emotional_summary rag_context in
  let messages := [{| role := "system"; content := system_prompt |}] in
  let messages := messages ++ map turn_message conversation_context in
  let messages := messages ++ [{| role := "user"; content := user_message |}] in
  ret messages.

(** [requests.post(f"{self.ollama_url}/api/chat", json=..., timeout=60)] *)
Definition requests_post (post : http_post) (messages : list Message) : M Response :=
  st ← get;
  lift (post (ollama_url st +:+ "/api/chat") (model st) messages).

Definition timeout_reply : string :=
  "Lo siento Mijin, estoy tardando mucho en pensar... ¿Podrías repetir eso?".

Definition error_reply (msg : string) : string :=
  "Ay Mijin, algo salió mal: " +:+ msg.

Definition bad_status_reply (code : nat) : string :=
  "Error al conectar con el modelo: " +:+ pretty code.

(** The body of the [try] of [generate_response], lines 137-180. *)
Definition generate_response_body (post : http_post) (user_message user_id : string)
  : M (string * EmotionType) :=
  messages ← build_prompt user_message user_id;
  response ← requests_post post messages;
  if decide (status_code response = 200) then
    assistant_response ← lift (message_content response);
    let assistant_response := Think.sanitize assistant_response in
    add_message user_id "user" user_message None;;
    current ← current_state;
    add_message user_id "assistant" assistant_response
              (Some (emotion_value (emotion current)));;
    st ← get;
    match rag_engine st with
            | Some entries =>
              set_rag (Some (add_conversation_turn entries user_message
                                                   assistant_response))
            | None => ret tt
            end;;
    current ← current_state;
    ret (assistant_response, emotion current)
  else
    ret (bad_status_reply (status_code response), NEUTRAL).

(** The two [except] clauses, lines 182-185. *)
Definition generate_response_handler (e : exn) : M (string * EmotionType) :=
  match e with
  | Timeout => ret (timeout_reply, PREOCUPADA)
  | Error msg => ret (error_reply msg, PREOCUPADA)
  end.

(** [AIEngine.generate_response], lines 133-185. *)
Definition generate_response (post : http_post) (user_message user_id : string)
  : M (string * EmotionType) :=
  try_except (generate_response_body post user_message user_id)
             generate_response_handler.

(** The prompt a call assembles and the engine as [build_prompt] leaves
    it. *)
Definition prompt_of (user_message user_id : string) (st : AIEngine) : list Message :=
  match fst (build_prompt user_message user_id st) with
  | Return messages => messages
  | Raise _ => []
  end.

Definition after_prompt (user_message user_id : string) (st : AIEngine) : AIEngine :=
  snd (build_prompt user_message user_id st).

(** What the model adapter does in a call, in the spec's terms
    ([complete] returns the completion text or fails with a timeout, some
    other error, or a bad status), read off the branches of
    [generate_response]: an exception of [requests.post] or of the
    decoding of the body, or a status other than 200. *)
Inductive adapter_result : Type :=
| Completion (text : string)
| AdapterTimeout
| AdapterError (msg : string)
| BadStatus (code : nat).

Definition of_outcome (o : outcome string) : adapter_result :=
  match o with
  | Return text => Completion text
  | Raise Timeout => AdapterTimeout
  | Raise (Error msg) => AdapterError msg
  end.

Definition model_adapter (post : http_post) (user_message user_id : string)
    (st : AIEngine) : adapter_result :=
  match post (ollama_url st +:+ "/api/chat") (model st)
             (prompt_of user_message user_id st) with
  | Raise Timeout => AdapterTimeout
  | Raise (Error msg) => AdapterError msg
  | Return response =>
    if decide (status_code response = 200)
    then of_outcome (message_content response)
    else BadStatus (status_code response)
  end.

Definition adapter_failed (r : adapter_result) : Prop :=
  match r with
  | Completion _ => False
  | _ => True
  end.

(** One call of the public entry point, as the HTTP layer makes it. *)
Record Call : Type := {
  call_post : http_post;
  call_message : string;
  call_user : string
}.

(** The engine after a sequence of calls. *)
Definition run_calls (calls : list Call) (st : AIEngine) : AIEngine :=
  fold_left (fun st c =>
               snd (generate_response (call_post c) (call_message c) (call_user c) st))
            calls st.

(** The size of an assembled prompt: the bytes of its contents. *)
Definition prompt_size (messages : list Message) : nat :=
  list_sum (map (fun m => String.length (content m)) messages).

End AIEngine.

(* ===================================================================== *)
(** ** A concrete choice of the collaborators *)
(* ===================================================================== *)

Module Demo.

(** Intensities in hundredths, printed with two decimals. *)
Definition two_digits (n : nat) : string :=
  if (n <? 10)%nat then "0" +:+ pretty n else pretty n.

Definition hundredths : PyFloat :=
  {| float := nat;
     format_2f := fun n => pretty (n / 100)%nat +:+ "." +:+ two_digits (n mod 100) |}.

Definition value_of (e : EmotionType) : string :=
  match e with
  | NEUTRAL => "neutral"
  | HAPPY => "feliz"
  | PREOCUPADA => "preocupada"
  | SAD => "triste"
  | EXCITED => "emocionada"
  end.

Definition mentions (word text : string) : bool :=
  match PyStr.find word text with Some _ => true | None => false end.

(** Distress words give Worried, affectionate ones Happy, anything else
    Neutral with half of the previous intensity. *)
Definition classify_demo (text : string) (prev : @EmotionalState hundredths)
  : @EmotionalState hundredths :=
  if mentions "ayuda" text then
    {| emotion := PREOCUPADA; intensity := 80%nat : @float hundredths;
       reason := "distress" |}
  else if mentions "gracias" text then
    {| emotion := HAPPY; intensity := 70%nat : @float hundredths;
       reason := "affection" |}
  else
    {| emotion := NEUTRAL; intensity := (intensity prev / 2)%nat : @float hundredths;
       reason := "no strong signal detected" |}.

Definition collaborators : @Collaborators hundredths :=
  {| emotion_value := value_of;
     initial_state := {| emotion := NEUTRAL; intensity := 50%nat : @float hundredths;
                         reason := "inicio" |};
     classify := classify_demo;
     modifier_text := fun s => "Responde con tono " +:+ value_of (emotion s) +:+ ".";
     conversation_digest := fun um => "Mensajes: " +:+ pretty (length (history um));
     emotional_digest := fun um =>
       "Estados: " +:+ pretty (length (emotional_timeline um));
     rank := fun _ entries => rev entries;
     entry_text := fun u a => "Usuario: " +:+ u +:+ PyStr.nl +:+ "Lily: " +:+ a |}.

Definition engine (rag_ctor : outcome (list string)) (prompt_file : outcome string)
  : @AIEngine hundredths :=
  @init hundredths collaborators "http://127.0.0.1:11434" rag_ctor prompt_file.

Definition call (post : http_post) (msg uid : string) (st : @AIEngine hundredths) :=
  @generate_response hundredths collaborators post msg uid st.

(** An utterance of [n] bytes. *)
Fixpoint filler (n : nat) : string :=
  match n with
  | O => ""
  | S k => String "a" (filler k)
  end.

(** The engine when the index and the persona are there, and when both
    the constructor of the index and the reading of the persona failed. *)
Definition ready : @AIEngine hundredths :=
  engine (Return []) (Return "Eres Lily.").

Definition degraded : @AIEngine hundredths :=
  engine (Raise (Error "chromadb unavailable"))
         (Raise (Error "system_prompt.txt not found")).

(** Four behaviours of the model server. *)
Definition post_timeout : http_post := fun _ _ _ => Raise Timeout.
Definition post_refused : http_post := fun _ _ _ => Raise (Error "Connection refused").
Definition post_status (code : nat) : http_post :=
  fun _ _ _ => Return {| status_code := code; message_content := Raise (Error "no body") |}.
Definition post_reply (text : string) : http_post :=
  fun _ _ _ => Return {| status_code := 200; message_content := Return text |}.

(** The prompt, the adapter and the history of a user in the concrete
    engine. *)
Definition prompt (msg uid : string) (st : @AIEngine hundredths) : list Message :=
  @prompt_of hundredths collaborators msg uid st.

Definition adapter (post : http_post) (msg uid : string) (st : @AIEngine hundredths)
  : adapter_result :=
  @model_adapter hundredths collaborators post msg uid st.

Definition history_of (uid : string) (st : @AIEngine hundredths) : list DialogueTurn :=
  history (user_memory (memory_system st) uid).

Definition timeline_of (uid : string) (st : @AIEngine hundredths)
  : list (@EmotionalState hundredths) :=
  emotional_timeline (user_memory (memory_system st) uid).

(** [ready] after one successful exchange with user [u1]. *)
Definition talked : @AIEngine hundredths :=
  snd (call (post_reply "<think>saludo</think> Hola, Mijin. ") "Hola" "u1" ready).

End Demo.

(* ===================================================================== *)
(** ** The rest of [models/ai_engine.py]: the accessors *)
(* ===================================================================== *)

Section Accessors.
Context {F : PyFloat}.



(** The calls of a sequence made for one user. *)
Definition calls_of (user_id : string) (calls : list Call) : list Call :=
  filter (fun c => call_user c = user_id) calls.

(** The user turn and the assistant turn of one stored exchange: the
    utterance, the reply and the label of the reply. *)
Definition exchange (e : string * string * string) : list DialogueTurn :=
  let '(user_message, assistant_response, label) := e in
  [{| turn_role := "user"; turn_content := user_message; turn_emotion := None |};
   {| turn_role := "assistant"; turn_content := assistant_response;
      turn_emotion := Some label |}].

End Accessors.

(* ===================================================================== *)
(** ** [models/stt_engine.py] *)
(* ===================================================================== *)

(** A call into a library other than [requests]: it returns, or raises an
    exception of which the code reads [str(e)] at most. *)
Inductive raised (A : Type) : Type :=
| Done (a : A)
| Raised (text : string).
Arguments Done {A} a.
Arguments Raised {A} text.

Module STT.

(** [faster_whisper.WhisperModel] as far as [transcribe] uses it:
    [model.transcribe(path, beam_size=5, language="es")] and the reading of
    the [text] of the segments it yields, which may raise. *)
Record WhisperModel : Type := {
  segments_text : string -> raised (list string)
}.

(** [STTEngine]: [self.model] is the loaded model or [None]. *)
Record STTEngine : Type := { model : option WhisperModel }.

(** [STTEngine.__init__], lines 8-22, given what [import torch] did (with
    the value of [torch.cuda.is_available()]) and the constructor
    [WhisperModel(model_size, device=..., compute_type=...)]. *)
Definition init (model_size device compute_type : string) (torch : raised bool)
    (whisper : string -> string -> string -> raised WhisperModel) : STTEngine :=
  match torch with
  | Raised _ => {| model := None |}
  | Done cuda_available =>
    let '(device, compute_type) :=
      if bool_decide (device = "cuda") && negb cuda_available
      then ("cpu", "int8")
      else (device, compute_type) in
    match whisper model_size device compute_type with
    | Done m => {| model := Some m |}
    | Raised _ => {| model := None |}
    end
  end.

(** [STTEngine.transcribe], lines 24-40; [fs] holds the paths for which
    [os.path.exists] is true. *)
Definition transcribe (self : STTEngine) (fs : gset string) (audio_file_path : string)
  : string :=
  match model self with
  | None => "Error: Modelo Whisper no cargado."
  | Some m =>
    if negb (bool_decide (audio_file_path ∈ fs))
    then "Error: Archivo de audio no encontrado."
    else
      match segments_text m audio_file_path with
      | Done segments => PyStr.strip (PyStr.join " " segments)
      | Raised text => "Error transcribiendo: " +:+ text
      end
  end.

End STT.

(* ===================================================================== *)
(** ** [models/wake_word_engine.py] and the wake-word part of [AIEngine] *)
(* ===================================================================== *)

Module WakeWord.

(** What [start_listening] and [stop_listening] do to threads. *)
Inductive thread_event : Type :=
| ThreadStart
| ThreadJoin.

(** [WakeWordEngine] as far as starting and stopping go: the flag
    [is_listening] and whether [listening_thread] holds a [Thread] (the
    callback, the word and the recogniser are left out). *)
Record WakeWordEngine : Type := {
  is_listening : bool;
  listening_thread : option unit
}.

(** [WakeWordEngine.__init__], lines 10-27, given what the set-up of the
    microphone did. *)
Definition init (microphone : raised unit) : raised WakeWordEngine :=
  match microphone with
  | Done _ => Done {| is_listening := false; listening_thread := None |}
  | Raised text => Raised text
  end.

(** [WakeWordEngine.start_listening], lines 29-39. *)
Definition start_listening (self : WakeWordEngine)
  : WakeWordEngine * list thread_event :=
  if is_listening self then (self, [])
  else ({| is_listening := true; listening_thread := Some tt |}, [ThreadStart]).

(** [WakeWordEngine.stop_listening], lines 41-46. *)
Definition stop_listening (self : WakeWordEngine)
  : WakeWordEngine * list thread_event :=
  ({| is_listening := false; listening_thread := listening_thread self |},
   match listening_thread self with
   | Some _ => [ThreadJoin]
   | None => []
   end).

(** A use of the engine: a sequence of starts ([true]) and stops
    ([false]), with the thread events it causes. *)
Fixpoint run (ops : list bool) (self : WakeWordEngine)
  : WakeWordEngine * list thread_event :=
  match ops with
  | [] => (self, [])
  | op :: ops' =>
    let '(self', events) := if op then start_listening self else stop_listening self in
    let '(self'', events') := run ops' self' in
    (self'', events ++ events')
  end.

(** No thread is started while one started before has not been joined. *)
Fixpoint single_listener (running : bool) (events : list thread_event) : bool :=
  match events with
  | [] => true
  | ThreadStart :: rest => negb running && single_listener true rest
  | ThreadJoin :: rest => single_listener false rest
  end.

(** An attribute of a Python object: assigned or not. *)
Inductive attribute (A : Type) : Type :=
| Unset
| Attr (a : A).
Arguments Unset {A}.
Arguments Attr {A} a.

(** The wake-word fields of [AIEngine]: [wake_word_enabled] and
    [wake_word_engine], which [__init__] assigns only when
    [enable_wake_word] is true. *)
Record WakeFields : Type := {
  wake_word_enabled : bool;
  wake_word_engine : attribute (option WakeWordEngine)
}.

(** [AIEngine.__init__], lines 26-35. *)
Definition init_fields (enable_wake_word : bool) (microphone : raised unit)
  : WakeFields :=
  if enable_wake_word then
    match init microphone with
    | Done engine => {| wake_word_enabled := true; wake_word_engine := Attr (Some engine) |}
    | Raised _ => {| wake_word_enabled := false; wake_word_engine := Attr None |}
    end
  else {| wake_word_enabled := false; wake_word_engine := Unset |}.

Definition attribute_error : string :=
  "'AIEngine' object has no attribute 'wake_word_engine'".

(** [if self.wake_word_enabled and self.wake_word_engine: ...], the shape
    of lines 59 and 65: the attribute is read only when the flag is true. *)
Definition when_enabled (self : WakeFields)
    (action : WakeWordEngine -> WakeWordEngine * list thread_event)
  : raised (WakeFields * list thread_event) :=
  if wake_word_enabled self then
    match wake_word_engine self with
    | Unset => Raised attribute_error
    | Attr None => Done (self, [])
    | Attr (Some engine) =>
      let '(engine', events) := action engine in
      Done ({| wake_word_enabled := wake_word_enabled self;
               wake_word_engine := Attr (Some engine') |}, events)
    end
  else Done (self, []).

(** [AIEngine.enable_wake_word_detection], lines 57-61. *)
Definition enable_wake_word_detection (self : WakeFields)
  : raised (WakeFields * list thread_event) :=
  when_enabled self start_listening.

(** [AIEngine.disable_wake_word_detection], lines 63-67. *)
Definition disable_wake_word_detection (self : WakeFields)
  : raised (WakeFields * list thread_event) :=
  when_enabled self stop_listening.

End WakeWord.

(* ===================================================================== *)
(** ** [main.py]: the endpoints *)
(* ===================================================================== *)

Module Main.

(** What a handler gives FastAPI: a body, or an [HTTPException]. *)
Inductive http_result (A : Type) : Type :=
| Ok (body : A)
| HTTPException (status_code : nat) (detail : string).
Arguments Ok {A} body.
Arguments HTTPException {A} status_code detail.

(** [ChatRequest] and [ChatResponse] of the missing [models/schemas.py],
    with the fields [chat] reads and writes. *)
Record ChatRequest : Type := { message : string; user_id : string }.

Record ChatResponse : Type := {
  response : string;
  emotion : string;
  audio_url : option string;
  timestamp : string
}.

(** The body of [/api/memory/{user_id}]. *)
Record MemoryBody : Type := {
  memory_user_id : string;
  conversation_summary : string;
  emotional_summary : string;
  recent_messages : list DialogueTurn
}.

(** The body of [/api/wake_word/status]. *)
Record WakeStatus : Type := { enabled : bool; listening : bool }.

(** A request to one of the three wake-word endpoints. *)
Inductive wake_request : Type :=
| Enable
| Disable
| Status.

(** What such a request is answered with. *)
Inductive wake_answer : Type :=
| Message (status message : string)
| StatusBody (body : WakeStatus).

Section Endpoints.
Context {F : PyFloat} {C : Collaborators}.

(** [str(e)] of an exception of [generate_response]; that of a timeout is
    [timeout_text]. *)
Definition exn_str (timeout_text : string) (e : exn) : string :=
  match e with
  | Timeout => timeout_text
  | Error msg => msg
  end.

(** [chat], lines 77-103. [tts] is [tts_engine.text_to_speech] of the
    missing [models/tts_engine.py], [now] is
    [datetime.now().isoformat()]. *)
Definition chat (post : http_post) (tts : string -> string -> raised (option string))
    (now timeout_text : string) (request : ChatRequest)
  : AIEngine -> http_result ChatResponse * AIEngine :=
  fun st =>
    match generate_response post (message request) (user_id request) st with
    | (Return (response_text, emotion), st') =>
      let audio_url :=
        match tts response_text (emotion_value emotion) with
        | Done url => url
        | Raised _ => None
        end in
      (Ok {| response := response_text;
             emotion := emotion_value emotion;
             audio_url := audio_url;
             timestamp := now |}, st')
    | (Raise e, st') =>
      (HTTPException 500 ("Error generando respuesta: " +:+ exn_str timeout_text e), st')
    end.

(** [get_user_memory], lines 119-134. *)
Definition get_user_memory (timeout_text user_id : string)
  : AIEngine -> http_result MemoryBody * AIEngine :=
  fun st =>
    match (context ← get_conversation_context user_id 10;
           summary ← get_conversation_summary user_id;
           emotional_summary ← get_emotional_summary user_id;
           ret {| memory_user_id := user_id;
                  conversation_summary := summary;
                  emotional_summary := emotional_summary;
                  recent_messages := context |}) st with
    | (Return body, st') => (Ok body, st')
    | (Raise e, st') =>
      (HTTPException 500 ("Error obteniendo memoria: " +:+ exn_str timeout_text e), st')
    end.

End Endpoints.

(** [transcribe_audio], lines 156-173. [now] is
    [datetime.now().timestamp()] as printed; [open_file], [copy] and
    [remove] are what [open(temp_filename, "wb")], [shutil.copyfileobj]
    and [os.remove(temp_filename)] did, each of them inside the [try];
    [fs] holds the existing paths. A removal that raises leaves the
    file. *)
Definition transcribe_audio (stt_engine : STT.STTEngine) (now : string)
    (open_file copy remove : raised unit) (fs : gset string)
  : http_result string * gset string :=
  let temp_filename := "temp_audio_" +:+ now +:+ ".wav" in
  match open_file with
  | Raised text => (HTTPException 500 ("Error transcribiendo audio: " +:+ text), fs)
  | Done _ =>
    let fs := {[temp_filename]} ∪ fs in
    match copy with
    | Raised text => (HTTPException 500 ("Error transcribiendo audio: " +:+ text), fs)
    | Done _ =>
      let text := STT.transcribe stt_engine fs temp_filename in
      match remove with
      | Raised text =>
        (HTTPException 500 ("Error transcribiendo audio: " +:+ text), fs)
      | Done _ => (Ok text, fs ∖ {[temp_filename]})
      end
    end
  end.

(** [enable_wake_word], lines 202-209. *)
Definition enable_wake_word (ai_engine : WakeWord.WakeFields)
  : http_result wake_answer * WakeWord.WakeFields * list WakeWord.thread_event :=
  match WakeWord.enable_wake_word_detection ai_engine with
  | Done (ai_engine', events) =>
    (Ok (Message "success" "Detección de palabra clave habilitada"), ai_engine', events)
  | Raised text =>
    (HTTPException 500 ("Error habilitando detección de palabra clave: " +:+ text),
     ai_engine, [])
  end.

(** [disable_wake_word], lines 212-219. *)
Definition disable_wake_word (ai_engine : WakeWord.WakeFields)
  : http_result wake_answer * WakeWord.WakeFields * list WakeWord.thread_event :=
  match WakeWord.disable_wake_word_detection ai_engine with
  | Done (ai_engine', events) =>
    (Ok (Message "success" "Detección de palabra clave deshabilitada"), ai_engine', events)
  | Raised text =>
    (HTTPException 500 ("Error deshabilitando detección de palabra clave: " +:+ text),
     ai_engine, [])
  end.

(** [get_wake_word_status], lines 222-231. *)
Definition get_wake_word_status (ai_engine : WakeWord.WakeFields)
  : http_result wake_answer :=
  match WakeWord.wake_word_engine ai_engine with
  | WakeWord.Unset =>
    HTTPException 500 ("Error obteniendo estado: " +:+ WakeWord.attribute_error)
  | WakeWord.Attr engine =>
    Ok (StatusBody
          {| enabled := WakeWord.wake_word_enabled ai_engine;
             listening := match engine with
                          | Some w => WakeWord.is_listening w
                          | None => false
                          end |})
  end.

(** One request to the wake-word endpoints. *)
Definition serve (request : wake_request) (ai_engine : WakeWord.WakeFields)
  : http_result wake_answer * WakeWord.WakeFields * list WakeWord.thread_event :=
  match request with
  | Enable => enable_wake_word ai_engine
  | Disable => disable_wake_word ai_engine
  | Status => (get_wake_word_status ai_engine, ai_engine, [])
  end.

(** A sequence of requests: the answers, the fields and the thread events
    at the end. *)
Fixpoint serve_all (requests : list wake_request) (ai_engine : WakeWord.WakeFields)
  : list (http_result wake_answer) * WakeWord.WakeFields * list WakeWord.thread_event :=
  match requests with
  | [] => ([], ai_engine, [])
  | request :: rest =>
    let '(answer, ai_engine', events) := serve request ai_engine in
    let '(answers, ai_engine'', events') := serve_all rest ai_engine' in
    (answer :: answers, ai_engine'', events ++ events')
  end.

End Main.

(* ===================================================================== *)
(** ** Concrete inputs for the rest of the code *)
(* ===================================================================== *)

Module DemoMore.

(** A completed exchange of user [u1] with the ready engine. *)
Definition greeting : string := "<think>saludo</think> Hola, Mijin. ".

Definition greeting_call : Call :=
  {| call_post := Demo.post_reply greeting; call_message := "Hola"; call_user := "u1" |}.

Definition run (calls : list Call) (st : @AIEngine Demo.hundredths)
  : @AIEngine Demo.hundredths :=
  @run_calls Demo.hundredths Demo.collaborators calls st.

(** A model that decodes every file into two segments, and one that fails
    on every file. *)
Definition two_segments : STT.WhisperModel :=
  {| STT.segments_text := fun _ => Done [" Hola"; " Mijin "] |}.

(** A constructor that refuses the device [cuda], and one that accepts
    every device. *)
Definition whisper_cpu_only (model_size device compute_type : string)
  : raised STT.WhisperModel :=
  if bool_decide (device = "cuda") then Raised "CUDA driver not found"
  else Done two_segments.

Definition whisper_any (model_size device compute_type : string)
  : raised STT.WhisperModel :=
  Done two_segments.

(** A speech synthesis that is down, and a chat request of user [u1]. *)
Definition tts_down (text emotion_name : string) : raised (option string) :=
  Raised "TTS unavailable".

Definition hola : Main.ChatRequest :=
  {| Main.message := "Hola"; Main.user_id := "u1" |}.

(** The engine after [/api/chat] answered [hola] with the model replying
    [greeting]. *)
Definition after_chat : @AIEngine Demo.hundredths :=
  snd (@Main.chat Demo.hundredths Demo.collaborators (Demo.post_reply greeting)
         tts_down "2026-01-01T00:00:00" "timed out" hola Demo.ready).

(** The ready engine after one completed exchange whose reply is 300
    bytes long: the reply is in the history of [u1] and in the index. *)
Definition long_reply : @AIEngine Demo.hundredths :=
  snd (Demo.call (Demo.post_reply (Demo.filler 300)) "Hola" "u1" Demo.ready).

(** The same engine with neither index entries nor history, as it would
    be had the snippets and the context turns been cut away. *)
Definition long_reply_cut : @AIEngine Demo.hundredths :=
  snd (Demo.call Demo.post_timeout "Hola" "u1" Demo.ready).

(** A completion with whitespace of several kinds around a block and
    around the text: blank, line feed, tab, no-break space (U+00A0) and
    ideographic space (U+3000). *)
Definition padded : string :=
  " " +:+ PyStr.nl +:+ Think.think_open +:+ "uno" +:+ PyStr.nl +:+ "dos"
  +:+ Think.think_close +:+ PyStr.utf8 [9] +:+ "Hello!" +:+ PyStr.utf8 [194; 160]
  +:+ " " +:+ PyStr.utf8 [227; 128; 128].

End DemoMore.

(* ===================================================================== *)
(** ** Facts about the string operations *)
(* ===================================================================== *)

Module PyStrFacts.
Import PyStr.

Lemma str_app_nil_l (b : string) : "" +:+ b = b.
Proof. reflexivity. Qed.

Lemma str_app_cons (x : ascii) (a b : string) :
  String x a +:+ b = String x (a +:+ b).
Proof. reflexivity. Qed.

Lemma str_app_assoc (a b c : string) : (a +:+ b) +:+ c = a +:+ (b +:+ c).
Proof.
  induction a as [|x a IH]; [reflexivity |].
  rewrite !str_app_cons. now rewrite IH.
Qed.

Lemma str_app_nil_r (a : string) : a +:+ "" = a.
Proof.
  induction a as [|x a IH]; [reflexivity |].
  rewrite str_app_cons. now rewrite IH.
Qed.

Lemma str_length_app (a b : string) :
  String.length (a +:+ b) = String.length a + String.length b.
Proof.
  induction a as [|x a IH]; [reflexivity |].
  rewrite str_app_cons. simpl. now rewrite IH.
Qed.

Lemma prefix_cons (a b : ascii) (p s : string) :
  starts_with (String a p) (String b s) = true <-> a = b /\ starts_with p s = true.
Proof.
  simpl. rewrite andb_true_iff, Ascii.eqb_eq. reflexivity.
Qed.

Lemma starts_with_length (pat s : string) :
  starts_with pat s = true -> String.length pat <= String.length s.
Proof.
  revert s. induction pat as [|a pat IH]; intros [|b s] H; simpl; try lia.
  - discriminate.
  - apply prefix_cons in H as [_ H]. specialize (IH _ H). lia.
Qed.

Lemma prefix_app (p r : string) : starts_with p (p +:+ r) = true.
Proof.
  induction p as [|a p IH]; [reflexivity |].
  rewrite str_app_cons. apply prefix_cons. auto.
Qed.

(** A prefix found in [b] is still one when text is appended. *)
Lemma prefix_app_l (p b r : string) :
  starts_with p b = true -> starts_with p (b +:+ r) = true.
Proof.
  revert b. induction p as [|a p IH]; intros [|x b] H; try easy.
  rewrite str_app_cons. apply prefix_cons in H as [-> H].
  apply prefix_cons. auto.
Qed.

(** A prefix of [b +:+ String c r] either lies within [b] or runs over the
    [c]. *)
Lemma prefix_app_inv (q b : string) (c : ascii) (r : string) :
  starts_with q (b +:+ String c r) = true ->
  starts_with q b = true \/ exists q2, q = b +:+ String c q2.
Proof.
  revert b. induction q as [|a q IH]; intros b H.
  - left. reflexivity.
  - destruct b as [|x b].
    + rewrite str_app_nil_l in H. apply prefix_cons in H as [-> H].
      right. exists q. reflexivity.
    + rewrite str_app_cons in H. apply prefix_cons in H as [-> H].
      destruct (IH _ H) as [Hp | [q2 ->]].
      * left. apply prefix_cons. auto.
      * right. exists q2. reflexivity.
Qed.

Lemma occurs_app_cons (c : ascii) (b q : string) : occurs c (b +:+ String c q).
Proof.
  induction b as [|x b IH]; [now left |].
  rewrite str_app_cons. now right.
Qed.

(** A pattern whose first byte does not come back later in it cannot
    start inside a non-empty [b] and end beyond a following occurrence of
    that byte. *)
Lemma prefix_no_overlap (c : ascii) (p b r : string) :
  ~ occurs c p ->
  b <> "" ->
  starts_with (String c p) (b +:+ String c r) = true ->
  starts_with (String c p) b = true.
Proof.
  intros Hc Hb H.
  destruct (prefix_app_inv _ _ _ _ H) as [Hp | [q2 Hq]]; [exact Hp |].
  destruct b as [|x b]; [contradiction |].
  rewrite str_app_cons in Hq. injection Hq as _ Hq.
  exfalso. apply Hc. rewrite Hq. apply occurs_app_cons.
Qed.

Lemma drop_0 (s : string) : drop 0 s = s.
Proof. destruct s; reflexivity. Qed.

Lemma drop_app_length (a b : string) : drop (String.length a) (a +:+ b) = b.
Proof. induction a as [|x a IH]; [apply drop_0 | exact IH]. Qed.

Lemma drop_app_le (n : nat) (a b : string) :
  n <= String.length a -> drop n (a +:+ b) = drop n a +:+ b.
Proof.
  revert a. induction n as [|n IH]; intros a Hn.
  - now rewrite !drop_0.
  - destruct a as [|x a]; simpl in Hn; [lia |].
    rewrite str_app_cons. simpl. apply IH. lia.
Qed.

Lemma find_cons (pat : string) (a : ascii) (s : string) :
  find pat (String a s) =
  if starts_with pat (String a s) then Some 0 else S <$> find pat s.
Proof. reflexivity. Qed.

Lemma find_None_prefix (pat s : string) :
  find pat s = None -> starts_with pat s = false.
Proof.
  destruct s as [|a s]; simpl; destruct (starts_with pat _); congruence.
Qed.

Lemma find_None_tail (pat : string) (a : ascii) (s : string) :
  find pat (String a s) = None -> find pat s = None.
Proof.
  rewrite find_cons. destruct (starts_with pat _); [discriminate |].
  destruct (find pat s); [discriminate | reflexivity].
Qed.

Lemma find_None_drop (pat : string) (n : nat) (s : string) :
  find pat s = None -> find pat (drop n s) = None.
Proof.
  revert s. induction n as [|n IH]; intros s H.
  - now rewrite drop_0.
  - destruct s as [|a s]; simpl; [exact H |].
    apply IH. eapply find_None_tail, H.
Qed.

(** Where [find] reports an occurrence the whole pattern fits. *)
Lemma find_bound (pat s : string) (k : nat) :
  find pat s = Some k -> k + String.length pat <= String.length s.
Proof.
  revert k. induction s as [|a s IH]; intros k.
  - simpl. destruct pat; simpl; [|discriminate].
    intros [= <-]. simpl. lia.
  - rewrite find_cons.
    destruct (starts_with pat (String a s)) eqn:Hp.
    + intros [= <-]. apply starts_with_length in Hp. lia.
    + destruct (find pat s) as [j|]; [|discriminate].
      intros [= <-]. specialize (IH _ eq_refl). simpl. lia.
Qed.

(** The first occurrence of a pattern [String c p], [c] not in [p], in
    [body +:+ String c p +:+ post] is the one written, when [body] holds
    none. *)
Lemma find_first (c : ascii) (p body post : string) :
  ~ occurs c p ->
  find (String c p) body = None ->
  find (String c p) (body +:+ String c p +:+ post) = Some (String.length body).
Proof.
  intros Hc. induction body as [|a body IH]; intros Hb.
  - rewrite str_app_nil_l.
    destruct (String c p +:+ post) as [|y t] eqn:E; [discriminate |].
    rewrite find_cons, <- E, prefix_app. reflexivity.
  - change (String a body +:+ String c p +:+ post)
      with (String a (body +:+ String c p +:+ post)).
    rewrite find_cons.
    destruct (starts_with (String c p) (String a (body +:+ String c p +:+ post)))
      eqn:Hp.
    + exfalso.
      change (String a (body +:+ String c p +:+ post))
        with (String a body +:+ String c (p +:+ post)) in Hp.
      apply prefix_no_overlap in Hp; [| exact Hc | discriminate].
      apply find_None_prefix in Hb. congruence.
    + rewrite IH; [reflexivity | eapply find_None_tail, Hb].
Qed.

(** Text appended after a byte [c] that starts the pattern and does not
    come back in it neither adds nor hides an occurrence in front. *)
Lemma find_app_keep (c : ascii) (p x r : string) :
  ~ occurs c p ->
  find (String c p) (String c r) = None ->
  find (String c p) (x +:+ String c r) = find (String c p) x.
Proof.
  intros Hc Hr. induction x as [|a x IH].
  - rewrite str_app_nil_l, Hr. reflexivity.
  - change (String a x +:+ String c r) with (String a (x +:+ String c r)).
    rewrite !find_cons, IH.
    destruct (starts_with (String c p) (String a x)) eqn:Hp.
    + change (String a (x +:+ String c r)) with (String a x +:+ String c r).
      now rewrite (prefix_app_l _ _ _ Hp).
    + destruct (starts_with (String c p) (String a (x +:+ String c r))) eqn:Hq;
        [| reflexivity].
      change (String a (x +:+ String c r)) with (String a x +:+ String c r) in Hq.
      apply prefix_no_overlap in Hq; [congruence | exact Hc | discriminate].
Qed.

End PyStrFacts.

(* ===================================================================== *)
(** ** Facts about the removal of reasoning blocks *)
(* ===================================================================== *)

Module ThinkFacts.
Import PyStr PyStrFacts Think.

Lemma open_head : think_open = String "<" "think>".
Proof. reflexivity. Qed.

Lemma close_head : think_close = String "<" "/think>".
Proof. reflexivity. Qed.

Lemma open_no_lt : ~ occurs "<" "think>".
Proof. simpl. intuition discriminate. Qed.

Lemma close_no_lt : ~ occurs "<" "/think>".
Proof. simpl. intuition discriminate. Qed.

Lemma re_sub_from_0_cons (c : ascii) (s : string) :
  re_sub_from 0 (String c s) =
  match think_match (String c s) with
  | Some n => re_sub_from (Nat.pred n) s
  | None => String c (re_sub_from 0 s)
  end.
Proof. reflexivity. Qed.

(** Passing over [n] bytes is resuming [n] bytes further. *)
Lemma re_sub_from_skip (n : nat) (s : string) :
  n <= String.length s -> re_sub_from n s = re_sub_from 0 (drop n s).
Proof.
  revert s. induction n as [|n IH]; intros s Hn.
  - now rewrite drop_0.
  - destruct s as [|a s]; simpl in Hn; [lia |].
    simpl. apply IH. lia.
Qed.

(** A match spans at least the two markers and lies within the text. *)
Lemma think_match_bound (s : string) (n : nat) :
  think_match s = Some n -> 15 <= n <= String.length s.
Proof.
  unfold think_match.
  destruct (starts_with think_open s) eqn:Hp; [|discriminate].
  destruct (find think_close (drop 7 s)) as [k|] eqn:Hf; [|discriminate].
  intros [= <-]. apply find_bound in Hf. apply starts_with_length in Hp.
  change (String.length think_open) with 7 in Hp.
  change (String.length think_close) with 8 in Hf.
  assert (String.length (drop 7 s) + 7 = String.length s) as Hd.
  { clear Hf. do 7 (destruct s as [|? s]; [simpl in Hp; lia |]).
    simpl. lia. }
  lia.
Qed.

(** The match at an opening marker ends with the first closing marker. *)
Lemma think_match_pair (body post : string) :
  find think_close body = None ->
  think_match (think_open +:+ body +:+ think_close +:+ post)
  = Some (7 + String.length body + 8).
Proof.
  intros Hb. unfold think_match.
  rewrite prefix_app.
  pose proof (drop_app_length think_open (body +:+ think_close +:+ post)) as Hd.
  change (String.length think_open) with 7 in Hd. rewrite Hd.
  rewrite close_head in *.
  rewrite (find_first _ _ _ _ close_no_lt Hb). reflexivity.
Qed.

(** In front of an opening marker there is no match where the text in
    front does not itself start with one. *)
Lemma think_match_before (pre r : string) :
  pre <> "" ->
  starts_with think_open pre = false ->
  think_match (pre +:+ String "<" r) = None.
Proof.
  intros Hne Hp. unfold think_match.
  destruct (starts_with think_open (pre +:+ String "<" r)) eqn:Hq; [|reflexivity].
  rewrite open_head in *.
  apply prefix_no_overlap in Hq; [congruence | exact open_no_lt | exact Hne].
Qed.

(** Every pair: text without opening marker, a pair whose body holds no
    closing marker, then the rest. *)
Lemma re_sub_pair (pre body post : string) :
  find think_open pre = None ->
  find think_close body = None ->
  re_sub_think (pre +:+ think_open +:+ body +:+ think_close +:+ post)
  = pre +:+ re_sub_think post.
Proof.
  intros Hpre Hb. unfold re_sub_think.
  induction pre as [|a pre IH].
  - rewrite !str_app_nil_l.
    pose proof (think_match_pair body post Hb) as Hm.
    rewrite open_head, str_app_cons in *.
    rewrite re_sub_from_0_cons, Hm.
    assert (Nat.pred (7 + String.length body + 8)
            = String.length ("think>" +:+ body +:+ think_close)) as ->.
    { rewrite !str_length_app. simpl. lia. }
    rewrite re_sub_from_skip.
    + rewrite <- (str_app_assoc body), <- (str_app_assoc "think>").
      rewrite <- str_app_assoc.
      rewrite (str_app_assoc "think>" body), drop_app_length. reflexivity.
    + rewrite !str_length_app. lia.
  - rewrite !str_app_cons, re_sub_from_0_cons.
    assert (think_match
              (String a (pre +:+ think_open +:+ body +:+ think_close +:+ post))
            = None) as ->.
    { apply (think_match_before (String a pre)
               ("think>" +:+ body +:+ think_close +:+ post)).
      - discriminate.
      - apply find_None_prefix, Hpre. }
    rewrite IH; [reflexivity | eapply find_None_tail, Hpre].
Qed.

(** Without closing marker nothing is removed. *)
Lemma re_sub_no_close (s : string) :
  find think_close s = None -> re_sub_think s = s.
Proof.
  unfold re_sub_think. induction s as [|a s IH]; intros H; [reflexivity |].
  rewrite re_sub_from_0_cons.
  assert (think_match (String a s) = None) as ->.
  { unfold think_match. destruct (starts_with _ _); [|reflexivity].
    now rewrite (find_None_drop _ 7 _ H). }
  rewrite IH; [reflexivity | eapply find_None_tail, H].
Qed.

(** An opening marker followed by text without closing marker holds no
    closing marker. *)
Lemma find_close_open (rest : string) :
  find think_close rest = None ->
  find think_close (think_open +:+ rest) = None.
Proof.
  intros H. unfold think_open.
  rewrite !str_app_cons, str_app_nil_l.
  rewrite !find_cons. simpl. now rewrite H.
Qed.

(** What follows an unclosed opening marker does not change the matches
    in front of it. *)
Lemma think_match_app_keep (pre r : string) :
  pre <> "" ->
  find think_close (String "<" r) = None ->
  think_match (pre +:+ String "<" r) = think_match pre.
Proof.
  intros Hne Hr.
  destruct (starts_with think_open pre) eqn:Hp.
  - unfold think_match. rewrite Hp, (prefix_app_l _ _ _ Hp).
    rewrite drop_app_le by (apply starts_with_length in Hp; simpl in Hp; lia).
    rewrite close_head in *.
    now rewrite (find_app_keep _ _ _ _ close_no_lt Hr).
  - rewrite (think_match_before _ _ Hne Hp).
    unfold think_match. now rewrite Hp.
Qed.

Lemma re_sub_from_unclosed (k : nat) (pre r : string) :
  k <= String.length pre ->
  find think_close (String "<" r) = None ->
  re_sub_from k (pre +:+ String "<" r) = re_sub_from k pre +:+ String "<" r.
Proof.
  intros Hk Hr. revert k Hk. induction pre as [|a pre IH]; intros k Hk.
  - simpl in Hk. assert (k = 0) as -> by lia.
    rewrite !str_app_nil_l. apply (re_sub_no_close _ Hr).
  - rewrite str_app_cons. destruct k as [|k].
    + rewrite !re_sub_from_0_cons, <- str_app_cons.
      rewrite think_match_app_keep by (discriminate || exact Hr).
      destruct (think_match (String a pre)) as [n|] eqn:Hm.
      * apply IH. apply think_match_bound in Hm. simpl in Hm. lia.
      * rewrite str_app_cons. f_equal. apply IH. lia.
    + simpl in *. apply IH. lia.
Qed.

(** An unclosed opening marker and what follows it stay. *)
Lemma re_sub_unclosed (pre rest : string) :
  find think_close rest = None ->
  re_sub_think (pre +:+ think_open +:+ rest)
  = re_sub_think pre +:+ think_open +:+ rest.
Proof.
  intros H. apply find_close_open in H.
  unfold re_sub_think. rewrite open_head, str_app_cons in *.
  apply re_sub_from_unclosed; [lia | exact H].
Qed.

End ThinkFacts.

(* ===================================================================== *)
(** ** Facts about [strip] *)
(* ===================================================================== *)

Module StripFacts.
Import PyStr PyStrFacts.

(** Induction on the length of a string. *)
Lemma string_length_ind (P : string -> Prop) :
  (forall s, (forall t, String.length t < String.length s -> P t) -> P s) ->
  forall s, P s.
Proof.
  intros H s.
  assert (forall n t, String.length t < n -> P t) as Hn.
  { induction n as [|n IH]; intros t Ht; [lia |].
    apply H. intros u Hu. apply IH. lia. }
  apply (Hn (S (String.length s))). lia.
Qed.

Lemma all_space_lstrip (s : string) : all_space s = true <-> lstrip s = "".
Proof.
  unfold all_space. destruct (lstrip s); split; congruence.
Qed.

(** The four ways [lstrip] can go at a non-empty string. *)
Lemma lstrip_cases (s : string) :
  s = ""
  \/ (exists a s1, s = String a s1 /\ is_space1 a = true /\ lstrip s = lstrip s1)
  \/ (exists a b s2, s = String a (String b s2) /\ is_space1 a = false /\
                     is_space2 a b = true /\ lstrip s = lstrip s2)
  \/ (exists a b c s3, s = String a (String b (String c s3)) /\
                       is_space1 a = false /\ is_space2 a b = false /\
                       is_space3 a b c = true /\ lstrip s = lstrip s3)
  \/ (s <> "" /\ lstrip s = s).
Proof.
  destruct s as [|a s1]; [now left |]. right.
  destruct (is_space1 a) eqn:H1.
  { left. exists a, s1. simpl. rewrite H1. auto. }
  right. destruct s1 as [|b s2].
  { right. right. simpl. rewrite H1. split; [discriminate | reflexivity]. }
  destruct (is_space2 a b) eqn:H2.
  { left. exists a, b, s2. simpl. rewrite H1, H2. auto. }
  right. destruct s2 as [|c s3].
  { right. simpl. rewrite H1, H2. split; [discriminate | reflexivity]. }
  destruct (is_space3 a b c) eqn:H3.
  { left. exists a, b, c, s3. simpl. rewrite H1, H2, H3. auto. }
  right. simpl. rewrite H1, H2, H3. split; [discriminate | reflexivity].
Qed.

(** [lstrip] cuts off a prefix made of whitespace only. *)
Lemma lstrip_split (s : string) :
  exists l, s = l +:+ lstrip s /\ all_space l = true.
Proof.
  induction s as [s IH] using string_length_ind.
  destruct (lstrip_cases s)
    as [-> | [(a & s1 & -> & H1 & E) | [(a & b & s2 & -> & H1 & H2 & E)
       | [(a & b & c & s3 & -> & H1 & H2 & H3 & E) | [_ E]]]]].
  - exists "". auto.
  - destruct (IH s1) as (l & Hl & Hs); [simpl; lia |].
    exists (String a l). rewrite E, str_app_cons, <- Hl. split; [reflexivity |].
    apply all_space_lstrip. simpl. rewrite H1. now apply all_space_lstrip.
  - destruct (IH s2) as (l & Hl & Hs); [simpl; lia |].
    exists (String a (String b l)). rewrite E, !str_app_cons, <- Hl.
    split; [reflexivity |].
    apply all_space_lstrip. simpl. rewrite H1, H2. now apply all_space_lstrip.
  - destruct (IH s3) as (l & Hl & Hs); [simpl; lia |].
    exists (String a (String b (String c l))). rewrite E, !str_app_cons, <- Hl.
    split; [reflexivity |].
    apply all_space_lstrip. simpl. rewrite H1, H2, H3. now apply all_space_lstrip.
  - exists "". rewrite E. auto.
Qed.

(** Stripping on the left twice is stripping once. *)
Lemma lstrip_idem (s : string) : lstrip (lstrip s) = lstrip s.
Proof.
  induction s as [s IH] using string_length_ind.
  destruct (lstrip_cases s)
    as [-> | [(a & s1 & -> & H1 & E) | [(a & b & s2 & -> & H1 & H2 & E)
       | [(a & b & c & s3 & -> & H1 & H2 & H3 & E) | [_ E]]]]];
    rewrite ?E; try reflexivity; apply IH; simpl; lia.
Qed.

(** Whitespace in front of a text is stripped with it. *)
Lemma lstrip_app_space (x r : string) :
  all_space x = true -> lstrip (x +:+ r) = lstrip r.
Proof.
  induction x as [x IH] using string_length_ind. intros Hx.
  apply all_space_lstrip in Hx.
  destruct (lstrip_cases x)
    as [-> | [(a & s1 & -> & H1 & E) | [(a & b & s2 & -> & H1 & H2 & E)
       | [(a & b & c & s3 & -> & H1 & H2 & H3 & E) | [Hne E]]]]].
  - reflexivity.
  - rewrite str_app_cons. simpl. rewrite H1. apply IH; [simpl; lia |].
    apply all_space_lstrip. congruence.
  - rewrite !str_app_cons. simpl. rewrite H1, H2. apply IH; [simpl; lia |].
    apply all_space_lstrip. congruence.
  - rewrite !str_app_cons. simpl. rewrite H1, H2, H3. apply IH; [simpl; lia |].
    apply all_space_lstrip. congruence.
  - congruence.
Qed.

Lemma all_space_app (x r : string) :
  all_space x = true -> all_space r = true -> all_space (x +:+ r) = true.
Proof.
  intros Hx Hr. apply all_space_lstrip.
  rewrite (lstrip_app_space _ _ Hx). now apply all_space_lstrip.
Qed.

(** [rstrip] cuts off a suffix made of whitespace only. *)
Lemma rstrip_split (s : string) :
  exists r, s = rstrip s +:+ r /\ all_space r = true.
Proof.
  induction s as [|a s IH].
  - exists "". auto.
  - simpl rstrip. destruct (all_space (String a s)) eqn:Ha.
    + exists (String a s). auto.
    + destruct IH as (r & Hr & Hs). exists r.
      rewrite str_app_cons, <- Hr. auto.
Qed.

(** Stripping on the right twice is stripping once. *)
Lemma rstrip_idem (s : string) : rstrip (rstrip s) = rstrip s.
Proof.
  induction s as [|a s IH]; [reflexivity |].
  simpl rstrip. destruct (all_space (String a s)) eqn:Ha; [reflexivity |].
  simpl rstrip. rewrite IH.
  destruct (all_space (String a (rstrip s))) eqn:Hb; [| reflexivity].
  exfalso. destruct (rstrip_split s) as (r & Hr & Hs).
  pose proof (all_space_app _ _ Hb Hs) as Hc.
  rewrite str_app_cons, <- Hr in Hc. congruence.
Qed.

(** [rstrip] keeps a left end that [lstrip] has nothing to take from. *)
Lemma lstrip_rstrip (t : string) :
  lstrip t = t -> lstrip (rstrip t) = rstrip t.
Proof.
  intros Ht.
  destruct (lstrip_split t) as (l0 & _ & _).
  assert (forall u, String.length (lstrip u) <= String.length u) as Hlen.
  { intros u. destruct (lstrip_split u) as (l & Hl & _).
    rewrite Hl at 2. rewrite str_length_app. lia. }
  destruct (lstrip_cases t)
    as [-> | [(a & s1 & -> & H1 & E) | [(a & b & s2 & -> & H1 & H2 & E)
       | [(a & b & c & s3 & -> & H1 & H2 & H3 & E) | [Hne _]]]]].
  - reflexivity.
  - exfalso. pose proof (Hlen s1) as H. rewrite <- E, Ht in H. simpl in H. lia.
  - exfalso. pose proof (Hlen s2) as H. rewrite <- E, Ht in H. simpl in H. lia.
  - exfalso. pose proof (Hlen s3) as H. rewrite <- E, Ht in H. simpl in H. lia.
  - destruct t as [|a s1]; [contradiction |].
    simpl rstrip. destruct (all_space (String a s1)); [reflexivity |].
    simpl in Ht. destruct (is_space1 a) eqn:H1.
    { exfalso. pose proof (Hlen s1) as H. rewrite Ht in H. simpl in H. lia. }
    destruct s1 as [|b s2]; [simpl; now rewrite H1 |].
    simpl rstrip. destruct (all_space (String b s2)).
    { simpl. now rewrite H1. }
    destruct (is_space2 a b) eqn:H2.
    { exfalso. pose proof (Hlen s2) as H. rewrite Ht in H. simpl in H. lia. }
    destruct s2 as [|c s3].
    { simpl. now rewrite H1, H2. }
    simpl rstrip. destruct (all_space (String c s3)).
    { simpl. now rewrite H1, H2. }
    destruct (is_space3 a b c) eqn:H3.
    { exfalso. pose proof (Hlen s3) as H. rewrite Ht in H. simpl in H. lia. }
    simpl. now rewrite H1, H2, H3.
Qed.

(** [strip] cuts whitespace off both ends and leaves none there. *)
Lemma strip_spec (s : string) :
  (exists l r, s = l +:+ strip s +:+ r /\ all_space l = true /\ all_space r = true)
  /\ lstrip (strip s) = strip s
  /\ rstrip (strip s) = strip s.
Proof.
  unfold strip. split; [| split].
  - destruct (lstrip_split s) as (l & Hl & Hls).
    destruct (rstrip_split (lstrip s)) as (r & Hr & Hrs).
    exists l, r. rewrite <- Hr. auto.
  - apply lstrip_rstrip, lstrip_idem.
  - apply rstrip_idem.
Qed.

(** *** Bytes below 128 that are not whitespace *)

Lemma space2_low_r (x c : ascii) : nat_of_ascii c < 128 -> is_space2 x c = false.
Proof.
  intros Hc. unfold is_space2.
  apply andb_false_iff. right. apply orb_false_iff.
  split; apply Nat.eqb_neq; lia.
Qed.

Lemma space2_low_l (c y : ascii) : nat_of_ascii c < 128 -> is_space2 c y = false.
Proof.
  intros Hc. unfold is_space2.
  apply andb_false_iff. left. apply Nat.eqb_neq. lia.
Qed.

Lemma space3_low_l (c y z : ascii) : nat_of_ascii c < 128 -> is_space3 c y z = false.
Proof.
  intros Hc. unfold is_space3. cbv zeta.
  assert (forall n, 128 <= n -> (nat_of_ascii c =? n)%nat = false) as H
    by (intros n Hn; apply Nat.eqb_neq; lia).
  rewrite !H by lia. reflexivity.
Qed.

Lemma space3_low_m (x c z : ascii) : nat_of_ascii c < 128 -> is_space3 x c z = false.
Proof.
  intros Hc. unfold is_space3. cbv zeta.
  assert (forall n, 128 <= n -> (nat_of_ascii c =? n)%nat = false) as H
    by (intros n Hn; apply Nat.eqb_neq; lia).
  rewrite !H by lia. rewrite !andb_false_r. reflexivity.
Qed.

Lemma space3_low_r (x y c : ascii) : nat_of_ascii c < 128 -> is_space3 x y c = false.
Proof.
  intros Hc. unfold is_space3. cbv zeta.
  assert (forall n, 128 <= n -> (nat_of_ascii c =? n)%nat = false) as H
    by (intros n Hn; apply Nat.eqb_neq; lia).
  assert ((128 <=? nat_of_ascii c)%nat = false) as H' by (apply Nat.leb_gt; lia).
  rewrite !H by lia. rewrite H'. rewrite !andb_false_r. reflexivity.
Qed.

(** [lstrip] does not reach beyond such a byte. *)
Lemma lstrip_app_plain (a : string) (c : ascii) (r : string) :
  is_space1 c = false -> nat_of_ascii c < 128 ->
  lstrip (a +:+ String c r) = lstrip a +:+ String c r.
Proof.
  intros H1 Hc. induction a as [a IH] using string_length_ind.
  destruct a as [|x s1].
  { rewrite str_app_nil_l. simpl. rewrite H1.
    destruct r as [|y r]; [reflexivity |]. rewrite (space2_low_l _ _ Hc).
    destruct r as [|z r]; [reflexivity |]. now rewrite (space3_low_l _ _ _ Hc). }
  rewrite str_app_cons.
  destruct (is_space1 x) eqn:H1x.
  { simpl. rewrite H1x. apply IH. simpl. lia. }
  destruct s1 as [|b s2].
  { rewrite str_app_nil_l. simpl. rewrite H1x, (space2_low_r _ _ Hc).
    destruct r as [|z r]; [reflexivity |]. now rewrite (space3_low_m _ _ _ Hc). }
  rewrite str_app_cons.
  destruct (is_space2 x b) eqn:H2.
  { simpl. rewrite H1x, H2. apply IH. simpl. lia. }
  destruct s2 as [|d s3].
  { rewrite str_app_nil_l. simpl.
    now rewrite H1x, H2, (space3_low_r _ _ _ Hc). }
  rewrite str_app_cons.
  destruct (is_space3 x b d) eqn:H3.
  { simpl. rewrite H1x, H2, H3. apply IH. simpl. lia. }
  simpl. now rewrite H1x, H2, H3.
Qed.

(** Neither does [rstrip]. *)
Lemma rstrip_app_plain (x : string) (c : ascii) (r : string) :
  is_space1 c = false -> nat_of_ascii c < 128 ->
  rstrip (x +:+ String c r) = x +:+ String c (rstrip r).
Proof.
  intros H1 Hc.
  assert (forall y, all_space (y +:+ String c r) = false) as Hy.
  { intros y. unfold all_space. rewrite (lstrip_app_plain _ _ _ H1 Hc).
    destruct (lstrip y); reflexivity. }
  induction x as [|a x IH].
  - rewrite !str_app_nil_l. simpl rstrip.
    pose proof (Hy "") as H0. rewrite str_app_nil_l in H0. now rewrite H0.
  - rewrite !str_app_cons. simpl rstrip.
    pose proof (Hy (String a x)) as H0. rewrite str_app_cons in H0.
    now rewrite H0, IH.
Qed.

End StripFacts.

(* ===================================================================== *)
(** ** Facts about [sanitize] *)
(* ===================================================================== *)

Module SanitizeFacts.
Import PyStr PyStrFacts StripFacts Think ThinkFacts.

(** After a pair the reply is what is left of the rest. *)
Lemma sanitize_pair (pre body post : string) :
  find think_open pre = None ->
  find think_close body = None ->
  sanitize (pre +:+ think_open +:+ body +:+ think_close +:+ post)
  = strip (pre +:+ re_sub_think post).
Proof.
  intros Hpre Hb. unfold sanitize. now rewrite re_sub_pair.
Qed.

(** An unclosed marker and the text after it reach the reply; of that
    text only whitespace at the very end is trimmed. *)
Lemma sanitize_unclosed (pre rest : string) :
  find think_close rest = None ->
  sanitize (pre +:+ think_open +:+ rest)
  = lstrip (re_sub_think pre) +:+ think_open +:+ rstrip rest.
Proof.
  intros H. unfold sanitize, strip.
  rewrite (re_sub_unclosed _ _ H).
  change (think_open +:+ rest) with (String "<" ("think" +:+ String ">" rest)).
  rewrite lstrip_app_plain by (reflexivity || (vm_compute; lia)).
  change (String "<" ("think" +:+ String ">" rest))
    with ("<think" +:+ String ">" rest).
  rewrite <- str_app_assoc.
  rewrite rstrip_app_plain by (reflexivity || (vm_compute; lia)).
  rewrite str_app_assoc. reflexivity.
Qed.

End SanitizeFacts.

(* ===================================================================== *)
(** ** Facts about markers, whitespace and joining *)
(* ===================================================================== *)

Module MarkerFacts.
Import PyStr PyStrFacts StripFacts Think ThinkFacts SanitizeFacts.

Lemma occurs_split (c : ascii) (s : string) :
  occurs c s -> exists a r, s = a +:+ String c r.
Proof.
  induction s as [|x s IH]; [contradiction |].
  intros [-> | H].
  - exists "", s. reflexivity.
  - destruct (IH H) as (a & r & ->). exists (String x a), r. reflexivity.
Qed.

Lemma find_not_occurs (c : ascii) (p s : string) :
  ~ occurs c s -> find (String c p) s = None.
Proof.
  induction s as [|x s IH]; intros H; [reflexivity |].
  rewrite find_cons.
  destruct (starts_with (String c p) (String x s)) eqn:Hp.
  - apply prefix_cons in Hp as [-> _]. exfalso. apply H. now left.
  - rewrite IH; [reflexivity |]. intros Ho. apply H. now right.
Qed.

(** Whitespace holds no [<]. *)
Lemma all_space_no_lt (s : string) : all_space s = true -> ~ occurs "<" s.
Proof.
  intros Hs Ho. destruct (occurs_split _ _ Ho) as (a & r & ->).
  apply all_space_lstrip in Hs.
  rewrite lstrip_app_plain in Hs by (reflexivity || (vm_compute; lia)).
  destruct (lstrip a); discriminate.
Qed.

(** Without opening marker nothing is removed. *)
Lemma re_sub_no_open (s : string) :
  find think_open s = None -> re_sub_think s = s.
Proof.
  unfold re_sub_think. induction s as [|a s IH]; intros H; [reflexivity |].
  rewrite re_sub_from_0_cons.
  assert (think_match (String a s) = None) as ->.
  { unfold think_match. now rewrite (find_None_prefix _ _ H). }
  rewrite IH; [reflexivity | eapply find_None_tail, H].
Qed.


Lemma join_lengths (sep : string) (parts : list string) :
  list_sum (map String.length parts) <= String.length (join sep parts).
Proof.
  induction parts as [|p ps IH]; [simpl; lia |].
  destruct ps as [|q ps]; [simpl; lia |].
  change (join sep (p :: q :: ps)) with (p +:+ sep +:+ join sep (q :: ps)).
  rewrite !str_length_app. simpl in *. lia.
Qed.

(** Every character of the table is taken by [lstrip]. *)
Lemma whitespace_lstrip (c s : string) :
  In c whitespace -> lstrip (c +:+ s) = lstrip s.
Proof.
  unfold whitespace. intros H.
  repeat (destruct H as [<- | H]; [reflexivity |]).
  contradiction.
Qed.

Lemma blank_lstrip (chars : list string) (s : string) :
  blank chars -> lstrip (String.concat "" chars +:+ s) = lstrip s.
Proof.
  induction 1 as [|c chars Hc _ IH]; [reflexivity |].
  destruct chars as [|d chars].
  - now apply whitespace_lstrip.
  - change (String.concat "" (c :: d :: chars))
      with (c +:+ "" +:+ String.concat "" (d :: chars)).
    rewrite str_app_nil_l, str_app_assoc, (whitespace_lstrip _ _ Hc). exact IH.
Qed.

Lemma blank_all_space (chars : list string) :
  blank chars -> all_space (String.concat "" chars) = true.
Proof.
  intros H. apply all_space_lstrip.
  rewrite <- (str_app_nil_r (String.concat "" chars)).
  now rewrite (blank_lstrip _ _ H).
Qed.

Lemma visible_plain (a : ascii) :
  visible a -> is_space1 a = false /\ nat_of_ascii a < 128.
Proof.
  unfold visible, is_space1. intros H. split; [| lia].
  cbv zeta.
  assert ((nat_of_ascii a <=? 13)%nat = false) as -> by (apply Nat.leb_gt; lia).
  assert ((nat_of_ascii a <=? 32)%nat = false) as -> by (apply Nat.leb_gt; lia).
  now rewrite !andb_false_r.
Qed.

Lemma rstrip_all_space (s : string) : all_space s = true -> rstrip s = "".
Proof. destruct s as [|a s]; [reflexivity |]. simpl rstrip. now intros ->. Qed.

(** [strip] takes exactly the whitespace off a text that begins and ends
    with a visible character. *)
Lemma strip_blank (left right : list string) (a b : ascii) (front back core : string) :
  blank left -> blank right ->
  visible a -> visible b ->
  core = String a back -> core = front +:+ String b "" ->
  strip (String.concat "" left +:+ core +:+ String.concat "" right) = core.
Proof.
  intros Hl Hr Ha Hb Hfirst Hlast. unfold strip.
  destruct (visible_plain _ Ha) as [Ha1 Ha2].
  destruct (visible_plain _ Hb) as [Hb1 Hb2].
  rewrite (blank_lstrip _ _ Hl).
  rewrite Hfirst at 1. rewrite str_app_cons.
  rewrite <- (str_app_nil_l (String a _)).
  rewrite (lstrip_app_plain "" a _ Ha1 Ha2).
  change (lstrip "" +:+ String a (back +:+ String.concat "" right))
    with (String a back +:+ String.concat "" right).
  rewrite <- Hfirst, Hlast, str_app_assoc, str_app_cons, str_app_nil_l.
  rewrite (rstrip_app_plain front b _ Hb1 Hb2).
  now rewrite (rstrip_all_space _ (blank_all_space _ Hr)).
Qed.

(** Whitespace holds no opening marker. *)
Lemma blank_no_open (chars : list string) :
  blank chars -> find think_open (String.concat "" chars) = None.
Proof.
  intros H. rewrite open_head. apply find_not_occurs.
  apply all_space_no_lt. now apply blank_all_space.
Qed.

Lemma concat_empty_app (xs ys : list string) :
  String.concat "" (xs ++ ys) = String.concat "" xs +:+ String.concat "" ys.
Proof.
  induction xs as [|x xs IH]; [reflexivity |].
  destruct xs as [|x' xs].
  - destruct ys as [|y ys]; [now rewrite str_app_nil_r | reflexivity].
  - change (String.concat "" ((x :: x' :: xs) ++ ys))
      with (x +:+ "" +:+ String.concat "" ((x' :: xs) ++ ys)).
    change (String.concat "" (x :: x' :: xs))
      with (x +:+ "" +:+ String.concat "" (x' :: xs)).
    rewrite IH, !str_app_nil_l. now rewrite str_app_assoc.
Qed.

(** No opening marker comes about by putting whitespace in front of a
    text or behind it. *)
Lemma find_open_after_space (w s : string) :
  all_space w = true ->
  find think_open s = None ->
  find think_open (w +:+ s) = None.
Proof.
  intros Hw Hs. apply all_space_no_lt in Hw.
  induction w as [|x w IH]; [exact Hs |].
  rewrite str_app_cons, find_cons.
  destruct (starts_with think_open (String x (w +:+ s))) eqn:Hp.
  - rewrite open_head in Hp. apply prefix_cons in Hp as [<- _].
    exfalso. apply Hw. now left.
  - rewrite IH; [reflexivity |]. intros Ho. apply Hw. now right.
Qed.

Lemma find_open_before_space (s r : string) :
  find think_open s = None ->
  all_space r = true ->
  find think_open (s +:+ r) = None.
Proof.
  intros Hs Hr. induction s as [|c s IH].
  - rewrite str_app_nil_l, open_head. apply find_not_occurs.
    now apply all_space_no_lt.
  - rewrite str_app_cons, find_cons, <- str_app_cons.
    rewrite IH by (eapply find_None_tail, Hs).
    destruct (starts_with think_open (String c s +:+ r)) eqn:Hp; [| reflexivity].
    exfalso. destruct r as [|x r].
    + rewrite str_app_nil_r in Hp.
      apply find_None_prefix in Hs. congruence.
    + destruct (prefix_app_inv _ _ _ _ Hp) as [Hq | [q2 Hq]].
      * apply find_None_prefix in Hs. congruence.
      * assert (occurs x think_open) as Hx
          by (rewrite Hq; apply occurs_app_cons).
        assert (is_space1 x = false /\ nat_of_ascii x < 128) as [H1 H2].
        { simpl in Hx.
          repeat (destruct Hx as [<- | Hx];
                  [split; [reflexivity | vm_compute; lia] |]).
          contradiction. }
        apply all_space_lstrip in Hr.
        rewrite <- (str_app_nil_l (String x r)) in Hr.
        rewrite (lstrip_app_plain "" x r H1 H2) in Hr. discriminate.
Qed.

(** Whitespace (and a block), a text from a visible character to a
    visible character without opening marker, whitespace: the text is
    what sanitization leaves. *)
Lemma sanitize_blank (left right : list string) (a b : ascii)
    (front back core : string) :
  blank left -> blank right ->
  visible a -> visible b ->
  core = String a back -> core = front +:+ String b "" ->
  find think_open core = None ->
  sanitize (String.concat "" left +:+ core +:+ String.concat "" right) = core.
Proof.
  intros Hl Hr Ha Hb Hfirst Hlast Hcore. unfold sanitize.
  rewrite re_sub_no_open.
  - now apply (strip_blank left right a b front back).
  - apply find_open_after_space; [now apply blank_all_space |].
    apply find_open_before_space; [exact Hcore | now apply blank_all_space].
Qed.

Lemma sanitize_block_blank (left middle right : list string) (a b : ascii)
    (body front back core : string) :
  blank left -> blank middle -> blank right ->
  visible a -> visible b ->
  core = String a back -> core = front +:+ String b "" ->
  find think_open core = None ->
  find think_close body = None ->
  sanitize (String.concat "" left +:+ think_open +:+ body +:+ think_close +:+
            String.concat "" middle +:+ core +:+ String.concat "" right)
  = core.
Proof.
  intros Hl Hm Hr Ha Hb Hfirst Hlast Hcore Hbody.
  rewrite (sanitize_pair _ _ _ (blank_no_open _ Hl) Hbody).
  rewrite re_sub_no_open.
  - rewrite <- str_app_assoc, <- concat_empty_app.
    apply (strip_blank (left ++ middle) right a b front back); try assumption.
    unfold blank. now apply Forall_app.
  - apply find_open_after_space; [now apply blank_all_space |].
    apply find_open_before_space; [exact Hcore | now apply blank_all_space].
Qed.

End MarkerFacts.

(* ===================================================================== *)
(** ** Facts about the engine *)
(* ===================================================================== *)

Section EngineFacts.
Context {F : PyFloat} {C : Collaborators}.

Ltac run_engine :=
  cbv [build_prompt update_emotional_state add_emotional_state
       get_emotional_modifier get_conversation_context get_emotional_summary
       get_conversation_summary set_memory requests_post current_state
       add_message set_rag mbind M_bind bind ret get modify lift];
  cbn [fst snd ollama_url model emotional_intelligence memory_system rag_engine
       base_system_prompt].

Lemma user_memory_insert (mem : gmap string UserMemory) (uid : string) (um : UserMemory) :
  user_memory (<[uid := um]> mem) uid = um.
Proof. unfold user_memory. now rewrite lookup_insert_eq. Qed.

Lemma user_memory_insert_ne (mem : gmap string UserMemory) (uid u : string)
    (um : UserMemory) :
  uid <> u -> user_memory (<[uid := um]> mem) u = user_memory mem u.
Proof. intros H. unfold user_memory. now rewrite lookup_insert_ne. Qed.

(** [build_prompt] step by step: the new emotional record is put in the
    slot and appended to the user's timeline, then everything else is
    read. *)
Lemma build_prompt_run (msg uid : string) (st : AIEngine) :
  let new_state := classify msg (emotional_intelligence st) in
  let um := user_memory (memory_system st) uid in
  let um' := {| history := history um;
                emotional_timeline := emotional_timeline um ++ [new_state] |} in
  build_prompt msg uid st =
  (Return
     ({| role := "system";
         content := system_prompt_text (base_system_prompt st)
                      (modifier_text new_state) new_state
                      (conversation_digest um') (emotional_digest um')
                      (rag_context_of (rag_engine st) msg) |}
      :: map turn_message (last_n 6 (history um))
      ++ [{| role := "user"; content := msg |}]),
   {| ollama_url := ollama_url st;
      model := model st;
      emotional_intelligence := new_state;
      memory_system := <[uid := um']> (memory_system st);
      rag_engine := rag_engine st;
      base_system_prompt := base_system_prompt st |}).
Proof.
  intros new_state um um'. run_engine.
  rewrite !user_memory_insert. reflexivity.
Qed.

Lemma prompt_of_eq (msg uid : string) (st : AIEngine) :
  build_prompt msg uid st = (Return (prompt_of msg uid st), after_prompt msg uid st).
Proof.
  unfold prompt_of, after_prompt. now rewrite build_prompt_run.
Qed.

(** The handler turns every exception into a reply. *)
Lemma try_except_handler {A} (body : M A) (st : AIEngine) :
  forall handler : exn -> M A,
  (forall e st', exists a, handler e st' = (Return a, st')) ->
  exists a st', try_except body handler st = (Return a, st').
Proof.
  intros handler H. unfold try_except.
  destruct (body st) as [[a|e] st'].
  - eauto.
  - destruct (H e st') as [a Ha]. eauto.
Qed.

Lemma handler_returns (e : exn) (st : AIEngine) :
  exists a, generate_response_handler e st = (Return a, st).
Proof. destruct e; simpl; eauto. Qed.

(** Whatever happens inside the [try], the call returns a pair. *)
Lemma generate_response_returns (post : http_post) (msg uid : string)
    (st : AIEngine) :
  exists text emo st',
    generate_response post msg uid st = (Return (text, emo), st').
Proof.
  unfold generate_response.
  destruct (try_except_handler (generate_response_body post msg uid) st
              generate_response_handler)
    as ([text emo] & st' & E).
  - intros e st'. apply handler_returns.
  - eauto.
Qed.

(** The reply of a call, by what the adapter did. *)
Lemma generate_response_reply (post : http_post) (msg uid : string) (st : AIEngine) :
  fst (generate_response post msg uid st) =
  Return
    match model_adapter post msg uid st with
    | Completion raw =>
      (Think.sanitize raw, emotion (classify msg (emotional_intelligence st)))
    | AdapterTimeout => (timeout_reply, PREOCUPADA)
    | AdapterError m => (error_reply m, PREOCUPADA)
    | BadStatus code => (bad_status_reply code, NEUTRAL)
    end.
Proof.
  unfold generate_response, try_except, generate_response_body, model_adapter.
  cbv [mbind M_bind bind requests_post get lift].
  rewrite prompt_of_eq.
  unfold after_prompt. rewrite build_prompt_run.
  cbn [snd ollama_url model].
  destruct (post _ _ _) as [response | [|m]]; try reflexivity.
  destruct (decide (status_code response = 200)); [|reflexivity].
  destruct (message_content response) as [raw | [|m]]; try reflexivity.
  cbn [of_outcome]. run_engine.
  destruct (rag_engine st); reflexivity.
Qed.

(** A failed model call leaves the engine as [build_prompt] left it. *)
Lemma generate_response_failed (post : http_post) (msg uid : string) (st : AIEngine) :
  adapter_failed (model_adapter post msg uid st) ->
  snd (generate_response post msg uid st) = after_prompt msg uid st.
Proof.
  unfold generate_response, try_except, generate_response_body, model_adapter.
  cbv [mbind M_bind bind requests_post get lift].
  rewrite prompt_of_eq.
  unfold after_prompt. rewrite build_prompt_run.
  cbn [snd ollama_url model].
  destruct (post _ _ _) as [response | [|m]]; try reflexivity.
  destruct (decide (status_code response = 200)); [|reflexivity].
  destruct (message_content response) as [raw | [|m]]; try reflexivity.
  cbn [of_outcome adapter_failed]. contradiction.
Qed.

(** A successful one appends the user turn and the reply to the user's
    history, and the pair to the index when there is one. *)
Lemma generate_response_completed (post : http_post) (msg uid raw : string)
    (st : AIEngine) :
  model_adapter post msg uid st = Completion raw ->
  let st' := snd (generate_response post msg uid st) in
  let new_state := classify msg (emotional_intelligence st) in
  history (user_memory (memory_system st') uid)
  = history (user_memory (memory_system st) uid)
    ++ [{| turn_role := "user"; turn_content := msg; turn_emotion := None |};
        {| turn_role := "assistant"; turn_content := Think.sanitize raw;
           turn_emotion := Some (emotion_value (emotion new_state)) |}]
  /\ rag_engine st'
     = (fun entries => add_conversation_turn entries msg (Think.sanitize raw))
         <$> rag_engine st.
Proof.
  unfold generate_response, try_except, generate_response_body, model_adapter.
  cbv [mbind M_bind bind requests_post get lift].
  rewrite prompt_of_eq.
  unfold after_prompt. rewrite build_prompt_run.
  cbn [snd ollama_url model].
  destruct (post _ _ _) as [response | [|m]]; try discriminate.
  destruct (decide (status_code response = 200)); [|discriminate].
  destruct (message_content response) as [raw' | [|m]]; try discriminate.
  cbn [of_outcome]. intros [= ->]. run_engine.
  destruct (rag_engine st); cbn [snd memory_system rag_engine];
    rewrite !user_memory_insert; cbn [history];
    rewrite <- app_assoc; split; reflexivity.
Qed.


Lemma adapter_cases (r : adapter_result) :
  adapter_failed r \/ exists raw, r = Completion raw.
Proof. destruct r; simpl; eauto. Qed.

Lemma bad_status_not_200 (post : http_post) (msg uid : string) (st : AIEngine)
    (code : nat) :
  model_adapter post msg uid st = BadStatus code -> code <> 200.
Proof.
  unfold model_adapter.
  destruct (post _ _ _) as [response | [|m]]; try discriminate.
  destruct (decide (status_code response = 200)) as [|Hne].
  - destruct (message_content response) as [raw | [|m]]; discriminate.
  - now intros [= <-].
Qed.

(** No call creates a retrieval index where there was none. *)
Lemma generate_response_rag_none (post : http_post) (msg uid : string)
    (st : AIEngine) :
  rag_engine st = None ->
  rag_engine (snd (generate_response post msg uid st)) = None.
Proof.
  intros Hnone.
  destruct (adapter_cases (model_adapter post msg uid st)) as [Hf | [raw Hc]].
  - rewrite (generate_response_failed _ _ _ _ Hf).
    unfold after_prompt. now rewrite build_prompt_run.
  - destruct (generate_response_completed _ _ _ _ _ Hc) as [_ ->].
    now rewrite Hnone.
Qed.

Lemma run_calls_rag_none (calls : list Call) (st : AIEngine) :
  rag_engine st = None -> rag_engine (run_calls calls st) = None.
Proof.
  revert st. induction calls as [|c calls IH]; intros st H; [exact H |].
  apply IH. now apply generate_response_rag_none.
Qed.

Lemma last_n_suffix {A} (n : nat) (l : list A) :
  exists older, l = older ++ last_n n l.
Proof.
  exists (List.firstn (length l - n) l). unfold last_n.
  now rewrite List.firstn_skipn.
Qed.

Lemma last_n_length {A} (n : nat) (l : list A) :
  length (last_n n l) = Nat.min n (length l).
Proof. unfold last_n. rewrite List.length_skipn. lia. Qed.

Lemma query_length (entries : list string) (text : string) (n : nat) :
  length (query entries text n) <= n.
Proof. unfold query. rewrite List.length_firstn. lia. Qed.

Lemma prompt_size_cons (m : Message) (ms : list Message) :
  prompt_size (m :: ms) = String.length (content m) + prompt_size ms.
Proof. reflexivity. Qed.

Lemma prompt_size_app (ms1 ms2 : list Message) :
  prompt_size (ms1 ++ ms2) = prompt_size ms1 + prompt_size ms2.
Proof. unfold prompt_size. now rewrite map_app, list_sum_app. Qed.

(** The persona opens the system prompt and the retrieval segment closes
    it. *)
Lemma system_prompt_text_ends (base modifier : string) (es : EmotionalState)
    (conv emo rag : string) :
  exists middle,
    system_prompt_text base modifier es conv emo rag = base +:+ middle +:+ rag.
Proof.
  unfold system_prompt_text.
  exists (PyStr.nl +:+ PyStr.nl +:+
          "CONTEXTO EMOCIONAL ACTUAL:" +:+ PyStr.nl +:+
          modifier +:+ PyStr.nl +:+
          "Tu emoción actual: " +:+ emotion_value (emotion es) +:+
          " (intensidad: " +:+ format_2f (intensity es) +:+ ")" +:+ PyStr.nl +:+
          "Razón: " +:+ reason es +:+ PyStr.nl +:+
          PyStr.nl +:+
          "MEMORIA DE CONVERSACIÓN:" +:+ PyStr.nl +:+
          conv +:+ PyStr.nl +:+
          emo +:+ PyStr.nl).
  f_equal. repeat (rewrite PyStrFacts.str_app_assoc; f_equal).
Qed.

Lemma Demo_filler_length (n : nat) : String.length (Demo.filler n) = n.
Proof. induction n as [|n IH]; simpl; [reflexivity | now rewrite IH]. Qed.

(** A prompt is at least as large as persona and utterance together. *)
Lemma prompt_size_ge (msg uid : string) (st : AIEngine) :
  String.length (base_system_prompt st) + String.length msg
  <= prompt_size (prompt_of msg uid st).
Proof.
  unfold prompt_of. rewrite build_prompt_run. cbn [fst].
  match goal with
  | |- context [system_prompt_text ?b ?m ?e ?c ?s ?r] =>
    destruct (system_prompt_text_ends b m e c s r) as [middle ->]
  end.
  rewrite prompt_size_cons, prompt_size_app. cbn [content].
  rewrite PyStrFacts.str_length_app.
  unfold prompt_size at 2. simpl. lia.
Qed.

(** The size of a prompt adds up the persona, every fetched snippet,
    every context turn and the utterance. *)
Lemma prompt_size_parts (msg uid : string) (st : AIEngine) :
  String.length (base_system_prompt st)
  + list_sum (map String.length
                (match rag_engine st with
                 | Some entries => query entries msg 2
                 | None => []
                 end))
  + list_sum (map (fun turn => String.length (turn_content turn))
                (last_n 6 (history (user_memory (memory_system st) uid))))
  + String.length msg
  <= prompt_size (prompt_of msg uid st).
Proof.
  unfold prompt_of. rewrite build_prompt_run. cbn [fst].
  match goal with
  | |- context [system_prompt_text ?b ?m ?e ?c ?s ?r] =>
    destruct (system_prompt_text_ends b m e c s r) as [middle ->]
  end.
  rewrite prompt_size_cons, prompt_size_app. cbn [content].
  rewrite !PyStrFacts.str_length_app.
  assert (list_sum (map String.length
                      (match rag_engine st with
                       | Some entries => query entries msg 2
                       | None => []
                       end))
          <= String.length (rag_context_of (rag_engine st) msg)) as Hrag.
  { unfold rag_context_of. destruct (rag_engine st) as [entries|]; [| simpl; lia].
    pose proof (MarkerFacts.join_lengths PyStr.nl (query entries msg 2)) as Hj.
    destruct (query entries msg 2) as [|a l]; [simpl; lia |].
    rewrite !PyStrFacts.str_length_app. lia. }
  assert (prompt_size
            (map turn_message
               (last_n 6 (history (user_memory (memory_system st) uid))))
          = list_sum (map (fun turn => String.length (turn_content turn))
                        (last_n 6 (history (user_memory (memory_system st) uid)))))
    as ->.
  { unfold prompt_size. now rewrite map_map. }
  unfold prompt_size at 1. simpl. lia.
Qed.

(** The retrieval segment, snippet by snippet: at most two are fetched. *)
Lemma rag_context_of_table (rag : option (list string)) (msg : string) :
  rag_context_of rag msg
  = match (match rag with Some entries => query entries msg 2 | None => [] end) with
    | [] => ""
    | [a] => "INFORMACIÓN RELEVANTE RECUPERADA:" +:+ PyStr.nl +:+ a +:+ PyStr.nl
    | a :: b :: _ =>
      "INFORMACIÓN RELEVANTE RECUPERADA:" +:+ PyStr.nl +:+
      (a +:+ PyStr.nl +:+ b) +:+ PyStr.nl
    end.
Proof.
  unfold rag_context_of. destruct rag as [entries|]; [| reflexivity].
  pose proof (query_length entries msg 2) as Hlen.
  destruct (query entries msg 2) as [|a [|b [|c l]]]; try reflexivity.
  simpl in Hlen. lia.
Qed.

End EngineFacts.

(* ===================================================================== *)
(** ** The specification, claim by claim *)
(* ===================================================================== *)

Section Claims.
Context {F : PyFloat} {C : Collaborators}.

(** C1, as amended: when the model adapter fails (timeout or any other
    failure), the fallback reply is returned but not persisted; after the
    call the dialogue history of every user, the caller's included, is
    what it was before. *)
Theorem failed_call_keeps_history (post : http_post) (msg uid : string)
    (st : AIEngine) :
  adapter_failed (model_adapter post msg uid st) ->
  forall u,
    history (user_memory (memory_system (snd (generate_response post msg uid st))) u)
    = history (user_memory (memory_system st) u).
Proof.
  intros Hf u. rewrite (generate_response_failed _ _ _ _ Hf).
  unfold after_prompt. rewrite build_prompt_run. cbn [snd memory_system].
  destruct (decide (uid = u)) as [->|Hne].
  - now rewrite user_memory_insert.
  - now rewrite user_memory_insert_ne.
Qed.

(** C2, as amended: when the model call raises an exception other than a
    timeout (a connection error, an undecodable body), the reply is the
    generic apologetic text followed by the text of the exception, tagged
    Worried; when the server answers with a status other than 200, the
    reply is the connection-error text followed by the status code,
    tagged Neutral. *)
Theorem other_failure_reply (post : http_post) (msg uid : string) (st : AIEngine) :
  adapter_failed (model_adapter post msg uid st) ->
  model_adapter post msg uid st <> AdapterTimeout ->
  (exists note,
      model_adapter post msg uid st = AdapterError note /\
      fst (generate_response post msg uid st)
      = Return ("Ay Mijin, algo salió mal: " +:+ note, PREOCUPADA))
  \/ (exists code,
         model_adapter post msg uid st = BadStatus code /\ code <> 200 /\
         fst (generate_response post msg uid st)
         = Return ("Error al conectar con el modelo: " +:+ pretty code, NEUTRAL)).
Proof.
  intros Hf Hnt. rewrite generate_response_reply.
  destruct (model_adapter post msg uid st) as [raw| |note|code] eqn:Hr.
  - contradiction.
  - congruence.
  - left. exists note. auto.
  - right. exists code. split; [reflexivity |]. split; [| reflexivity].
    eapply bad_status_not_200, Hr.
Qed.

(** C3, as amended: no size budget is applied to the assembled prompt and
    nothing is truncated. The persona opens the system segment in full,
    the retrieval segment with every fetched snippet in full closes it,
    every fetched context turn is there in full and the current utterance
    is the last message in full: the size of the prompt is at least the
    sizes of the persona, of all fetched snippets, of all fetched context
    turns and of the utterance together. So every budget is exceeded, by
    the prompt of a longer utterance and, with persona, index and
    utterance as they are, by the prompt after a longer turn in the
    history. *)
Theorem prompt_never_truncated (msg uid : string) (st : AIEngine) :
  let context := last_n 6 (history (user_memory (memory_system st) uid)) in
  let snippets := match rag_engine st with
                  | Some entries => query entries msg 2
                  | None => []
                  end in
  (exists middle,
      prompt_of msg uid st
      = {| role := "system";
           content := base_system_prompt st +:+ middle +:+
                      match snippets with
                      | [] => ""
                      | [a] =>
                        "INFORMACIÓN RELEVANTE RECUPERADA:" +:+ PyStr.nl +:+
                        a +:+ PyStr.nl
                      | a :: b :: _ =>
                        "INFORMACIÓN RELEVANTE RECUPERADA:" +:+ PyStr.nl +:+
                        (a +:+ PyStr.nl +:+ b) +:+ PyStr.nl
                      end |}
        :: map (fun turn => {| role := turn_role turn; content := turn_content turn |})
               context
        ++ [{| role := "user"; content := msg |}])
  /\ length snippets <= 2
  /\ String.length (base_system_prompt st)
     + list_sum (map String.length snippets)
     + list_sum (map (fun turn => String.length (turn_content turn)) context)
     + String.length msg
     <= prompt_size (prompt_of msg uid st)
  /\ (forall budget, exists long_msg,
         budget < prompt_size (prompt_of long_msg uid st))
  /\ (forall budget, exists st',
         base_system_prompt st' = base_system_prompt st
         /\ rag_engine st' = rag_engine st
         /\ budget < prompt_size (prompt_of msg uid st')).
Proof.
  intros context snippets. split; [| split; [| split; [| split]]].
  - unfold prompt_of. rewrite build_prompt_run. cbn [fst].
    match goal with
    | |- context [system_prompt_text ?b ?m ?e ?c ?s ?r] =>
      destruct (system_prompt_text_ends b m e c s r) as [middle ->]
    end.
    exists middle. now rewrite rag_context_of_table.
  - unfold snippets. destruct (rag_engine st); [apply query_length | simpl; lia].
  - apply prompt_size_parts.
  - intros budget. exists (Demo.filler (S budget)).
    pose proof (prompt_size_ge (Demo.filler (S budget)) uid st) as H.
    rewrite Demo_filler_length in H. lia.
  - intros budget.
    exists {| ollama_url := ollama_url st;
              model := model st;
              emotional_intelligence := emotional_intelligence st;
              memory_system :=
                <[uid := {| history := [{| turn_role := "assistant";
                                           turn_content := Demo.filler (S budget);
                                           turn_emotion := None |}];
                            emotional_timeline := [] |}]> (memory_system st);
              rag_engine := rag_engine st;
              base_system_prompt := base_system_prompt st |}.
    split; [reflexivity |]. split; [reflexivity |].
    match goal with
    | |- _ < prompt_size (prompt_of msg uid ?s) =>
      pose proof (prompt_size_parts msg uid s) as H
    end.
    cbn [memory_system] in H. rewrite user_memory_insert in H.
    cbn [history] in H. unfold last_n in H. simpl in H.
    rewrite Demo_filler_length in H.
    change (String "a" (Demo.filler budget)) with (Demo.filler (S budget)) in H.
    lia.
Qed.

(** C4: for every utterance and user id, in every state of the engine and
    whatever the network does, [generate_response] returns a reply text
    and an emotion and raises nothing; in particular in the engine built
    when the construction of the retrieval index and the loading of the
    persona both failed. The two [except] clauses do this on their own:
    whatever the body of the [try] does, and whichever exception it
    raises, a reply and an emotion come back. *)
Theorem generate_response_always_replies (post : http_post) (msg uid : string) :
  (forall st : AIEngine,
      exists text emo st',
        generate_response post msg uid st = (Return (text, emo), st'))
  /\ (forall url e1 e2,
         exists text emo st',
           generate_response post msg uid (init url (Raise e1) (Raise e2))
           = (Return (text, emo), st'))
  /\ (forall (body : M (string * EmotionType)) (st : AIEngine),
         exists text emo st',
           try_except body generate_response_handler st = (Return (text, emo), st')).
Proof.
  split; [| split].
  - intros st. apply generate_response_returns.
  - intros url e1 e2. apply generate_response_returns.
  - intros body st.
    destruct (try_except_handler body st generate_response_handler)
      as ([text emo] & st' & E).
    + intros e st'. apply handler_returns.
    + eauto.
Qed.

(** C6: the assembled prompt is exactly one system message, then the
    context turns, then the new utterance as the last message. The system
    message holds, in this order, the persona, the emotional modifier,
    the statement of the current emotion, the conversation summary, the
    emotional summary and the retrieved snippets, each snippet in full
    under the heading and followed by a line feed; the context turns are
    the at most 6 most recent of the user's history, oldest first; at
    most 2 snippets are fetched. *)
Theorem prompt_layout (msg uid : string) (st : AIEngine) :
  let new_state := classify msg (emotional_intelligence st) in
  let um := user_memory (memory_system st) uid in
  let um' := {| history := history um;
                emotional_timeline := emotional_timeline um ++ [new_state] |} in
  let context := last_n 6 (history um) in
  let snippets := match rag_engine st with
                  | Some entries => query entries msg 2
                  | None => []
                  end in
  prompt_of msg uid st
  = {| role := "system";
       content :=
         base_system_prompt st +:+ PyStr.nl +:+
         PyStr.nl +:+
         "CONTEXTO EMOCIONAL ACTUAL:" +:+ PyStr.nl +:+
         modifier_text new_state +:+ PyStr.nl +:+
         "Tu emoción actual: " +:+ emotion_value (emotion new_state) +:+
         " (intensidad: " +:+ format_2f (intensity new_state) +:+ ")" +:+ PyStr.nl +:+
         "Razón: " +:+ reason new_state +:+ PyStr.nl +:+
         PyStr.nl +:+
         "MEMORIA DE CONVERSACIÓN:" +:+ PyStr.nl +:+
         conversation_digest um' +:+ PyStr.nl +:+
         emotional_digest um' +:+ PyStr.nl +:+
         match snippets with
         | [] => ""
         | [a] =>
           "INFORMACIÓN RELEVANTE RECUPERADA:" +:+ PyStr.nl +:+ a +:+ PyStr.nl
         | a :: b :: _ =>
           "INFORMACIÓN RELEVANTE RECUPERADA:" +:+ PyStr.nl +:+
           (a +:+ PyStr.nl +:+ b) +:+ PyStr.nl
         end |}
    :: map (fun turn => {| role := turn_role turn; content := turn_content turn |})
           context
    ++ [{| role := "user"; content := msg |}]
  /\ length context = Nat.min 6 (length (history um))
  /\ (exists older, history um = older ++ context)
  /\ length snippets <= 2.
Proof.
  intros new_state um um' context snippets.
  split; [| split; [| split]].
  - unfold prompt_of. rewrite build_prompt_run. cbn [fst].
    rewrite rag_context_of_table. reflexivity.
  - apply last_n_length.
  - apply last_n_suffix.
  - unfold snippets. destruct (rag_engine st); [apply query_length | simpl; lia].
Qed.

(** C7: when the construction of the retrieval index failed, the engine
    works on without it. After any sequence of calls the index is still
    absent; the next call assembles its prompt with the empty retrieval
    segment, hands exactly that prompt to the model server and answers
    as it does with an index: the sanitized completion with the current
    emotion when the server answers 200 with a body, stored in the
    history as the user turn and the assistant turn, and the fallback
    replies otherwise; the index stays absent. *)
Theorem rag_absent_engine_works (url : string) (e : exn) (prompt_file : outcome string)
    (calls : list Call) (post : http_post) (msg uid : string) :
  let st := run_calls calls (init url (Raise e) prompt_file) in
  let new_state := classify msg (emotional_intelligence st) in
  let um := user_memory (memory_system st) uid in
  let um' := {| history := history um;
                emotional_timeline := emotional_timeline um ++ [new_state] |} in
  let prompt :=
    {| role := "system";
       content := system_prompt_text (base_system_prompt st)
                    (modifier_text new_state) new_state
                    (conversation_digest um') (emotional_digest um') "" |}
    :: map turn_message (last_n 6 (history um))
    ++ [{| role := "user"; content := msg |}] in
  let answer := post (ollama_url st +:+ "/api/chat") (model st) prompt in
  let st' := snd (generate_response post msg uid st) in
  rag_engine st = None
  /\ (exists text emo st',
         generate_response post msg uid st = (Return (text, emo), st'))
  /\ rag_context_of (rag_engine st) msg = ""
  /\ prompt_of msg uid st = prompt
  /\ fst (generate_response post msg uid st)
     = Return
         match answer with
         | Raise Timeout => (timeout_reply, PREOCUPADA)
         | Raise (Error m) => (error_reply m, PREOCUPADA)
         | Return response =>
           if decide (status_code response = 200) then
             match message_content response with
             | Return raw => (Think.sanitize raw, emotion new_state)
             | Raise Timeout => (timeout_reply, PREOCUPADA)
             | Raise (Error m) => (error_reply m, PREOCUPADA)
             end
           else (bad_status_reply (status_code response), NEUTRAL)
         end
  /\ history (user_memory (memory_system st') uid)
     = history um
       ++ match answer with
          | Return response =>
            if decide (status_code response = 200) then
              match message_content response with
              | Return raw =>
                exchange (msg, Think.sanitize raw, emotion_value (emotion new_state))
              | Raise _ => []
              end
            else []
          | Raise _ => []
          end
  /\ rag_engine st' = None.
Proof.
  intros st new_state um um' prompt answer st'.
  assert (rag_engine st = None) as Hnone
    by (apply run_calls_rag_none; reflexivity).
  assert (prompt_of msg uid st = prompt) as Hprompt.
  { unfold prompt_of. rewrite build_prompt_run. cbn [fst].
    now rewrite Hnone. }
  assert (model_adapter post msg uid st
          = match answer with
            | Raise Timeout => AdapterTimeout
            | Raise (Error m) => AdapterError m
            | Return response =>
              if decide (status_code response = 200)
              then of_outcome (message_content response)
              else BadStatus (status_code response)
            end) as Hadapter.
  { unfold model_adapter. now rewrite Hprompt. }
  split; [exact Hnone |]. split; [apply generate_response_returns |].
  split; [now rewrite Hnone |]. split; [exact Hprompt |].
  split; [| split].
  - rewrite generate_response_reply, Hadapter.
    destruct answer as [response | [|m]]; try reflexivity.
    destruct (decide (status_code response = 200)); [| reflexivity].
    destruct (message_content response) as [raw | [|m]]; reflexivity.
  - destruct (adapter_cases (model_adapter post msg uid st)) as [Hf | [raw Hc]].
    + unfold st'. rewrite (generate_response_failed _ _ _ _ Hf).
      unfold after_prompt. rewrite build_prompt_run.
      cbn [snd memory_system]. rewrite user_memory_insert. cbn [history].
      rewrite Hadapter in Hf.
      destruct answer as [response | [|m]]; try (now rewrite app_nil_r).
      destruct (decide (status_code response = 200)); [| now rewrite app_nil_r].
      destruct (message_content response) as [raw | [|m]];
        [contradiction | now rewrite app_nil_r | now rewrite app_nil_r].
    + destruct (generate_response_completed _ _ _ _ _ Hc) as [Hh _].
      unfold st'. rewrite Hh. rewrite Hadapter in Hc.
      destruct answer as [response | [|m]]; try discriminate.
      destruct (decide (status_code response = 200)); [| discriminate].
      destruct (message_content response) as [raw' | [|m]]; try discriminate.
      cbn [of_outcome] in Hc. injection Hc as ->. reflexivity.
  - now apply generate_response_rag_none.
Qed.

(** C8: when the model adapter times out, the call returns the fixed
    apologetic text tagged Worried; the timeout does not reach the
    caller. *)
Theorem timeout_reply_worried (post : http_post) (msg uid : string) (st : AIEngine) :
  model_adapter post msg uid st = AdapterTimeout ->
  fst (generate_response post msg uid st)
  = Return ("Lo siento Mijin, estoy tardando mucho en pensar... ¿Podrías repetir eso?",
            PREOCUPADA).
Proof.
  intros H. rewrite generate_response_reply, H. reflexivity.
Qed.

(** C9: when the prompt was assembled and the model call then fails
    (timeout, exception or non-success status), the call leaves the
    user's dialogue history and the retrieval index as they were, while
    the user's emotional timeline has grown by exactly one record, the
    one the prompt assembly derived from the utterance. *)
Theorem failed_call_frame (post : http_post) (msg uid : string) (st : AIEngine) :
  adapter_failed (model_adapter post msg uid st) ->
  let st' := snd (generate_response post msg uid st) in
  history (user_memory (memory_system st') uid)
  = history (user_memory (memory_system st) uid)
  /\ rag_engine st' = rag_engine st
  /\ emotional_timeline (user_memory (memory_system st') uid)
     = emotional_timeline (user_memory (memory_system st) uid)
       ++ [classify msg (emotional_intelligence st)].
Proof.
  intros Hf st'. unfold st'. rewrite (generate_response_failed _ _ _ _ Hf).
  unfold after_prompt. rewrite build_prompt_run.
  cbn [snd memory_system rag_engine]. rewrite user_memory_insert.
  auto.
Qed.

End Claims.

Section SanitizeClaims.
Import PyStr Think.

(** C5: sanitization removes every pair of an opening and a closing
    marker with all that lies between them, the pair ending at the first
    closing marker (non-greedy) whatever bytes lie between (line feeds
    too), and then cuts the whitespace off both ends. Whitespace is any
    run of the 29 characters of Python's table: with such runs in front
    of a block, between the block and a text and behind the text, or
    just around the text, the text alone is left, provided it begins and
    ends with a visible character and holds no opening marker. The
    example of the spec yields exactly [Hello!]. *)
Theorem sanitize_removes_pairs (pre body post raw : string)
    (left middle right : list string) (a b : ascii) (front back core : string) :
  find think_open pre = None ->
  find think_close body = None ->
  blank left -> blank middle -> blank right ->
  visible a -> visible b ->
  core = String a back -> core = front +:+ String b "" ->
  find think_open core = None ->
  re_sub_think (pre +:+ think_open +:+ body +:+ think_close +:+ post)
  = pre +:+ re_sub_think post
  /\ sanitize (pre +:+ think_open +:+ body +:+ think_close +:+ post)
     = strip (pre +:+ re_sub_think post)
  /\ sanitize raw = strip (re_sub_think raw)
  /\ (exists l r, re_sub_think raw = l +:+ sanitize raw +:+ r /\
                  all_space l = true /\ all_space r = true)
  /\ lstrip (sanitize raw) = sanitize raw
  /\ rstrip (sanitize raw) = sanitize raw
  /\ sanitize "<think>ignore me</think>Hello!" = "Hello!"
  /\ sanitize (String.concat "" left +:+ think_open +:+ body +:+ think_close +:+
               String.concat "" middle +:+ core +:+ String.concat "" right)
     = core
  /\ sanitize (String.concat "" left +:+ core +:+ String.concat "" right) = core.
Proof.
  intros Hpre Hb Hl Hm Hr Ha Hb' Hfirst Hlast Hcore.
  split; [now apply ThinkFacts.re_sub_pair |].
  split; [now apply SanitizeFacts.sanitize_pair |].
  split; [reflexivity |].
  destruct (StripFacts.strip_spec (re_sub_think raw)) as (Hs & Hls & Hrs).
  split; [exact Hs |]. split; [exact Hls |]. split; [exact Hrs |].
  split; [reflexivity |]. split.
  - now apply (MarkerFacts.sanitize_block_blank left middle right a b body front back).
  - now apply (MarkerFacts.sanitize_blank left right a b front back).
Qed.

(** C10: an opening marker with no closing marker after it stays in the
    reply with the text that follows it; in front of it only complete
    pairs are removed, and of the text after it only whitespace at the
    very end is trimmed. *)
Theorem unclosed_marker_stays (pre rest : string) :
  find think_close rest = None ->
  re_sub_think (pre +:+ think_open +:+ rest)
  = re_sub_think pre +:+ think_open +:+ rest
  /\ sanitize (pre +:+ think_open +:+ rest)
     = lstrip (re_sub_think pre) +:+ think_open +:+ rstrip rest.
Proof.
  intros H. split.
  - now apply ThinkFacts.re_sub_unclosed.
  - now apply SanitizeFacts.sanitize_unclosed.
Qed.

End SanitizeClaims.

(* ===================================================================== *)
(** ** The claims at concrete inputs *)
(* ===================================================================== *)

(** The spec's scenario for C1: the model adapter times out on
    [generateResponse("Hola", "u1")]. The apologetic reply comes back, and
    no turn is appended to the history of [u1]: it is as empty after the
    call as before. *)
Lemma timeout_appends_no_turn :
  Demo.adapter Demo.post_timeout "Hola" "u1" Demo.ready = AdapterTimeout
  /\ Demo.history_of "u1" Demo.ready = []
  /\ Demo.history_of "u1" (snd (Demo.call Demo.post_timeout "Hola" "u1" Demo.ready)) = []
  /\ ~ (length (Demo.history_of "u1" Demo.ready)
        < length (Demo.history_of "u1"
                    (snd (Demo.call Demo.post_timeout "Hola" "u1" Demo.ready)))).
Proof.
  assert (Demo.history_of "u1"
            (snd (Demo.call Demo.post_timeout "Hola" "u1" Demo.ready)) = []) as E
    by (vm_compute; reflexivity).
  repeat split; try exact E; try (vm_compute; reflexivity).
  rewrite E. simpl. lia.
Qed.

Lemma failed_call_keeps_history_witness :
  adapter_failed (Demo.adapter Demo.post_refused "Hola" "u1" Demo.talked)
  /\ Demo.history_of "u1" (snd (Demo.call Demo.post_refused "Hola" "u1" Demo.talked))
     = Demo.history_of "u1" Demo.talked.
Proof.
  split; [exact I |].
  apply (@failed_call_keeps_history Demo.hundredths Demo.collaborators
           Demo.post_refused "Hola" "u1" Demo.talked).
  exact I.
Defined.

(** C2 fails at a non-success status: the server answers 500, the reply is
    tagged Neutral, not Worried. *)
Lemma bad_status_is_neutral :
  Demo.adapter (Demo.post_status 500) "Hola" "u1" Demo.ready = BadStatus 500
  /\ fst (Demo.call (Demo.post_status 500) "Hola" "u1" Demo.ready)
     = Return ("Error al conectar con el modelo: 500", NEUTRAL)
  /\ ~ (exists text,
           fst (Demo.call (Demo.post_status 500) "Hola" "u1" Demo.ready)
           = Return (text, PREOCUPADA)).
Proof.
  assert (fst (Demo.call (Demo.post_status 500) "Hola" "u1" Demo.ready)
          = Return ("Error al conectar con el modelo: 500", NEUTRAL)) as E
    by (vm_compute; reflexivity).
  split; [vm_compute; reflexivity |]. split; [exact E |].
  intros [text H]. rewrite E in H. discriminate.
Qed.

Lemma other_failure_reply_witness :
  adapter_failed (Demo.adapter Demo.post_refused "Hola" "u1" Demo.ready)
  /\ Demo.adapter Demo.post_refused "Hola" "u1" Demo.ready <> AdapterTimeout
  /\ ((exists note,
          Demo.adapter Demo.post_refused "Hola" "u1" Demo.ready = AdapterError note /\
          fst (Demo.call Demo.post_refused "Hola" "u1" Demo.ready)
          = Return ("Ay Mijin, algo salió mal: " +:+ note, PREOCUPADA))
      \/ (exists code,
             Demo.adapter Demo.post_refused "Hola" "u1" Demo.ready = BadStatus code /\
             code <> 200 /\
             fst (Demo.call Demo.post_refused "Hola" "u1" Demo.ready)
             = Return ("Error al conectar con el modelo: " +:+ pretty code, NEUTRAL))).
Proof.
  split; [exact I |]. split; [discriminate |].
  apply (@other_failure_reply Demo.hundredths Demo.collaborators
           Demo.post_refused "Hola" "u1" Demo.ready).
  - exact I.
  - discriminate.
Defined.

Lemma filler_snoc (n : nat) :
  Demo.filler (S n) = Demo.filler n +:+ String "a" "".
Proof.
  induction n as [|n IH]; [reflexivity |].
  change (Demo.filler (S (S n))) with (String "a" (Demo.filler (S n))).
  rewrite IH at 1. reflexivity.
Qed.

Lemma filler_no_open (n : nat) : PyStr.find Think.think_open (Demo.filler n) = None.
Proof.
  rewrite ThinkFacts.open_head. apply MarkerFacts.find_not_occurs.
  induction n as [|n IH]; simpl; [tauto |].
  intros [H | H]; [discriminate | contradiction].
Qed.

(** A completion of visible characters only is its own sanitization. *)
Lemma sanitize_filler (n : nat) : Think.sanitize (Demo.filler (S n)) = Demo.filler (S n).
Proof.
  rewrite <- (PyStrFacts.str_app_nil_r (Demo.filler (S n))) at 1.
  apply (MarkerFacts.sanitize_blank [] [] "a" "a" (Demo.filler n) (Demo.filler n)
           (Demo.filler (S n))).
  - constructor.
  - constructor.
  - unfold PyStr.visible. vm_compute. lia.
  - unfold PyStr.visible. vm_compute. lia.
  - reflexivity.
  - apply filler_snoc.
  - apply filler_no_open.
Qed.

(** After a completed exchange the next prompt is larger than the reply. *)
Lemma prompt_after_reply (n : nat) :
  n < prompt_size
        (Demo.prompt "Hola" "u1"
           (snd (Demo.call (Demo.post_reply (Demo.filler (S n))) "Hola" "u1"
                   Demo.ready))).
Proof.
  assert (@model_adapter Demo.hundredths Demo.collaborators
            (Demo.post_reply (Demo.filler (S n))) "Hola" "u1" Demo.ready
          = Completion (Demo.filler (S n))) as Hc by reflexivity.
  destruct (@generate_response_completed Demo.hundredths Demo.collaborators
              _ _ _ _ _ Hc) as [Hh _].
  pose proof (@prompt_size_parts Demo.hundredths Demo.collaborators "Hola" "u1"
                (snd (Demo.call (Demo.post_reply (Demo.filler (S n))) "Hola" "u1"
                        Demo.ready))) as H.
  unfold Demo.call in *. rewrite Hh in H.
  change (history (user_memory (memory_system Demo.ready) "u1")) with (@nil DialogueTurn) in H.
  rewrite sanitize_filler in H.
  unfold last_n in H. cbn [app length Nat.sub skipn map list_sum turn_content] in H.
  replace (list_sum [String.length "Hola"; String.length (Demo.filler (S n))])
    with (4 + S n) in H
    by (cbn [list_sum fold_right]; rewrite Demo_filler_length; simpl; lia).
  unfold Demo.prompt. lia.
Qed.

(** C3 fails where the claim asks for truncation. The ready engine, with
    a persona of 10 bytes, has completed one exchange whose reply is 300
    bytes long, so that the reply is in the index and in the history.
    With a budget of 400 bytes, persona and utterance fit, and so does the
    whole prompt of the same utterance without snippets and context
    turns; truncating the snippet and then the context would keep the
    budget. The prompt assembled is larger than 400 bytes, with the
    snippet and the context turns in full. No budget at all is kept: a
    longer reply in the first exchange gives a larger prompt. *)
Lemma snippets_over_budget :
  Demo.adapter (Demo.post_reply (Demo.filler 300)) "Hola" "u1" Demo.ready
  = Completion (Demo.filler 300)
  /\ String.length (base_system_prompt DemoMore.long_reply) + String.length "Hola" <= 400
  /\ prompt_size (Demo.prompt "Hola" "u1" DemoMore.long_reply_cut) <= 400
  /\ 400 < prompt_size (Demo.prompt "Hola" "u1" DemoMore.long_reply)
  /\ @rag_context_of Demo.hundredths Demo.collaborators
       (rag_engine DemoMore.long_reply) "Hola"
     = "INFORMACIÓN RELEVANTE RECUPERADA:" +:+ PyStr.nl +:+
       ("Usuario: Hola" +:+ PyStr.nl +:+ "Lily: " +:+ Demo.filler 300) +:+ PyStr.nl
  /\ (exists front,
         Demo.prompt "Hola" "u1" DemoMore.long_reply
         = [{| role := "system";
               content := front +:+
                          @rag_context_of Demo.hundredths Demo.collaborators
                            (rag_engine DemoMore.long_reply) "Hola" |};
            {| role := "user"; content := "Hola" |};
            {| role := "assistant"; content := Demo.filler 300 |};
            {| role := "user"; content := "Hola" |}])
  /\ ~ (exists budget, forall reply,
          prompt_size
            (Demo.prompt "Hola" "u1"
               (snd (Demo.call (Demo.post_reply reply) "Hola" "u1" Demo.ready)))
          <= budget).
Proof.
  split; [reflexivity |].
  split; [vm_compute; lia |].
  split; [vm_compute; lia |].
  split; [vm_compute; lia |].
  split; [vm_compute; reflexivity |].
  split.
  - unfold Demo.prompt, prompt_of. rewrite build_prompt_run. cbn [fst].
    match goal with
    | |- context [system_prompt_text ?b ?m ?e ?c ?s ?r] =>
      destruct (@system_prompt_text_ends Demo.hundredths Demo.collaborators
                  b m e c s r) as [middle ->]
    end.
    exists (base_system_prompt DemoMore.long_reply +:+ middle).
    rewrite PyStrFacts.str_app_assoc. f_equal.
  - intros [budget H]. specialize (H (Demo.filler (S budget))).
    pose proof (prompt_after_reply budget). lia.
Qed.

Lemma timeout_reply_worried_witness :
  Demo.adapter Demo.post_timeout "Hola" "u1" Demo.degraded = AdapterTimeout
  /\ fst (Demo.call Demo.post_timeout "Hola" "u1" Demo.degraded)
     = Return ("Lo siento Mijin, estoy tardando mucho en pensar... ¿Podrías repetir eso?",
               PREOCUPADA).
Proof.
  split; [reflexivity |].
  apply (@timeout_reply_worried Demo.hundredths Demo.collaborators
           Demo.post_timeout "Hola" "u1" Demo.degraded).
  reflexivity.
Defined.

Lemma failed_call_frame_witness :
  adapter_failed (Demo.adapter (Demo.post_status 503) "ayuda" "u1" Demo.talked)
  /\ Demo.history_of "u1" (snd (Demo.call (Demo.post_status 503) "ayuda" "u1" Demo.talked))
     = Demo.history_of "u1" Demo.talked
  /\ rag_engine (snd (Demo.call (Demo.post_status 503) "ayuda" "u1" Demo.talked))
     = rag_engine Demo.talked
  /\ Demo.timeline_of "u1"
       (snd (Demo.call (Demo.post_status 503) "ayuda" "u1" Demo.talked))
     = Demo.timeline_of "u1" Demo.talked
       ++ [Demo.classify_demo "ayuda" (emotional_intelligence Demo.talked)].
Proof.
  split; [exact I |].
  apply (@failed_call_frame Demo.hundredths Demo.collaborators
           (Demo.post_status 503) "ayuda" "u1" Demo.talked).
  exact I.
Defined.

Lemma sanitize_removes_pairs_witness :
  PyStr.find Think.think_open "Hola " = None
  /\ PyStr.find Think.think_close ("uno" +:+ PyStr.nl +:+ "dos") = None
  /\ PyStr.blank [" "; PyStr.nl]
  /\ PyStr.blank [PyStr.utf8 [9]]
  /\ PyStr.blank [PyStr.utf8 [194; 160]; " "; PyStr.utf8 [227; 128; 128]]
  /\ PyStr.visible "H" /\ PyStr.visible "!"
  /\ PyStr.find Think.think_open "Hello!" = None
  /\ Think.re_sub_think
       ("Hola " +:+ Think.think_open +:+ ("uno" +:+ PyStr.nl +:+ "dos") +:+
        Think.think_close +:+ "<think>x</think>Mijin ")
     = "Hola " +:+ Think.re_sub_think "<think>x</think>Mijin "
  /\ Think.sanitize DemoMore.padded = "Hello!"
  /\ Think.sanitize
       (" " +:+ PyStr.nl +:+ "Hello!" +:+ PyStr.utf8 [194; 160] +:+ " "
        +:+ PyStr.utf8 [227; 128; 128])
     = "Hello!".
Proof.
  assert (forall chars,
             forallb (fun c => existsb (String.eqb c) PyStr.whitespace) chars = true ->
             PyStr.blank chars) as Hblank.
  { intros chars H. apply Forall_forall. intros c Hc.
    rewrite forallb_forall in H. apply list_elem_of_In in Hc.
    specialize (H c Hc). apply existsb_exists in H as (w & Hw & E).
    apply String.eqb_eq in E. now subst. }
  assert (PyStr.blank [" "; PyStr.nl]) as Hl by (apply Hblank; reflexivity).
  assert (PyStr.blank [PyStr.utf8 [9]]) as Hm by (apply Hblank; reflexivity).
  assert (PyStr.blank [PyStr.utf8 [194; 160]; " "; PyStr.utf8 [227; 128; 128]]) as Hr
    by (apply Hblank; reflexivity).
  assert (PyStr.visible "H") as Ha by (unfold PyStr.visible; vm_compute; lia).
  assert (PyStr.visible "!") as Hb by (unfold PyStr.visible; vm_compute; lia).
  pose proof (sanitize_removes_pairs "Hola " ("uno" +:+ PyStr.nl +:+ "dos")
                "<think>x</think>Mijin " DemoMore.padded
                [" "; PyStr.nl] [PyStr.utf8 [9]]
                [PyStr.utf8 [194; 160]; " "; PyStr.utf8 [227; 128; 128]]
                "H" "!" "Hello" "ello!" "Hello!"
                eq_refl eq_refl Hl Hm Hr Ha Hb eq_refl eq_refl eq_refl)
    as (H1 & _ & _ & _ & _ & _ & _ & H8 & H9).
  split; [reflexivity |]. split; [reflexivity |].
  split; [exact Hl |]. split; [exact Hm |]. split; [exact Hr |].
  split; [exact Ha |]. split; [exact Hb |]. split; [reflexivity |].
  split; [exact H1 |]. split; [exact H8 | exact H9].
Defined.

Lemma unclosed_marker_stays_witness :
  PyStr.find Think.think_close "sin cerrar  " = None
  /\ Think.sanitize (" <think>a</think>Hola " +:+ Think.think_open +:+ "sin cerrar  ")
     = PyStr.lstrip (Think.re_sub_think " <think>a</think>Hola ") +:+
       Think.think_open +:+ PyStr.rstrip "sin cerrar  ".
Proof.
  split; [reflexivity |].
  apply (unclosed_marker_stays " <think>a</think>Hola " "sin cerrar  ").
  reflexivity.
Defined.

(* ===================================================================== *)
(** ** More about the engine: what a call does to the whole state *)
(* ===================================================================== *)

Section EngineEffects.
Context {F : PyFloat} {C : Collaborators}.

Ltac run_effects :=
  cbv [build_prompt update_emotional_state add_emotional_state
       get_emotional_modifier get_conversation_context get_emotional_summary
       get_conversation_summary set_memory requests_post current_state
       add_message set_rag mbind M_bind bind ret get modify lift];
  cbn [fst snd ollama_url model emotional_intelligence memory_system rag_engine
       base_system_prompt].

(** Everything a call changes, by what the adapter did. *)
Lemma generate_response_effect (post : http_post) (msg uid : string) (st : AIEngine) :
  let st' := snd (generate_response post msg uid st) in
  let new_state := classify msg (emotional_intelligence st) in
  let um := user_memory (memory_system st) uid in
  let added :=
    match model_adapter post msg uid st with
    | Completion raw =>
      exchange (msg, Think.sanitize raw, emotion_value (emotion new_state))
    | _ => []
    end in
  ollama_url st' = ollama_url st
  /\ model st' = model st
  /\ base_system_prompt st' = base_system_prompt st
  /\ emotional_intelligence st' = new_state
  /\ user_memory (memory_system st') uid
     = {| history := history um ++ added;
          emotional_timeline := emotional_timeline um ++ [new_state] |}
  /\ (forall u, u <> uid -> memory_system st' !! u = memory_system st !! u)
  /\ rag_engine st'
     = match model_adapter post msg uid st with
       | Completion raw =>
         (fun entries => add_conversation_turn entries msg (Think.sanitize raw))
           <$> rag_engine st
       | _ => rag_engine st
       end.
Proof.
  intros st' new_state um added.
  destruct (adapter_cases (model_adapter post msg uid st)) as [Hf | [raw Hc]].
  - assert (added = []) as -> by (subst added; destruct (model_adapter _ _ _ _); easy).
    assert (rag_engine st' = rag_engine st /\ st' = after_prompt msg uid st) as [Hr Hs].
    { subst st'. rewrite (generate_response_failed _ _ _ _ Hf).
      unfold after_prompt. now rewrite build_prompt_run. }
    replace (match model_adapter post msg uid st with
             | Completion raw =>
               (fun entries => add_conversation_turn entries msg (Think.sanitize raw))
                 <$> rag_engine st
             | _ => rag_engine st
             end) with (rag_engine st)
      by (destruct (model_adapter _ _ _ _); easy).
    rewrite Hs. unfold after_prompt. rewrite build_prompt_run.
    cbn [snd ollama_url model base_system_prompt emotional_intelligence
         memory_system rag_engine].
    rewrite user_memory_insert, app_nil_r.
    repeat split; try reflexivity.
    intros u Hu. now rewrite lookup_insert_ne.
  - subst added. rewrite Hc. subst st'.
    revert Hc.
    unfold generate_response, try_except, generate_response_body, model_adapter.
    cbv [mbind M_bind bind requests_post get lift].
    rewrite prompt_of_eq.
    unfold after_prompt. rewrite build_prompt_run.
    cbn [snd ollama_url model].
    destruct (post _ _ _) as [response | [|m]]; try discriminate.
    destruct (decide (status_code response = 200)); [|discriminate].
    destruct (message_content response) as [raw' | [|m]]; try discriminate.
    cbn [of_outcome]. intros [= ->]. run_effects.
    rewrite !user_memory_insert. cbn [history emotional_timeline].
    destruct (rag_engine st) as [entries|];
      cbn [snd ollama_url model base_system_prompt emotional_intelligence
           memory_system rag_engine];
      rewrite user_memory_insert, <- app_assoc;
      (repeat split; try reflexivity);
      intros u Hu; now rewrite !lookup_insert_ne.
Qed.

Lemma run_calls_cons (c : Call) (calls : list Call) (st : AIEngine) :
  run_calls (c :: calls) st
  = run_calls calls
      (snd (generate_response (call_post c) (call_message c) (call_user c) st)).
Proof. reflexivity. Qed.

Lemma user_memory_lookup (mem mem' : gmap string UserMemory) (u : string) :
  mem' !! u = mem !! u -> user_memory mem' u = user_memory mem u.
Proof. unfold user_memory. now intros ->. Qed.

Lemma calls_of_cons (u : string) (c : Call) (calls : list Call) :
  calls_of u (c :: calls)
  = if decide (call_user c = u) then c :: calls_of u calls else calls_of u calls.
Proof. unfold calls_of. rewrite filter_cons. reflexivity. Qed.

Lemma last_n_app {A} (n : nat) (l t : list A) :
  last_n (n + length t) (l ++ t) = last_n n l ++ t.
Proof.
  unfold last_n. rewrite length_app.
  replace (length l + length t - (n + length t)) with (length l - n) by lia.
  rewrite List.skipn_app.
  replace (length l - n - length l) with 0 by lia. reflexivity.
Qed.

(** X1. A completed call hands back the sanitized completion with the
    emotion just derived from the utterance, appends to the user's history
    the utterance (without label) and then that same sanitized text
    labelled with that emotion, and appends the pair to the retrieval
    index when there is one. *)
Theorem completed_call_persists (post : http_post) (msg uid raw : string)
    (st : AIEngine) :
  model_adapter post msg uid st = Completion raw ->
  let st' := snd (generate_response post msg uid st) in
  let new_state := classify msg (emotional_intelligence st) in
  fst (generate_response post msg uid st)
  = Return (Think.sanitize raw, emotion new_state)
  /\ history (user_memory (memory_system st') uid)
     = history (user_memory (memory_system st) uid)
       ++ [{| turn_role := "user"; turn_content := msg; turn_emotion := None |};
           {| turn_role := "assistant"; turn_content := Think.sanitize raw;
              turn_emotion := Some (emotion_value (emotion new_state)) |}]
  /\ rag_engine st'
     = (fun entries => entries ++ [entry_text msg (Think.sanitize raw)])
         <$> rag_engine st.
Proof.
  intros Hc st' new_state.
  destruct (generate_response_effect post msg uid st)
    as (_ & _ & _ & _ & Hm & _ & Hr).
  rewrite Hc in Hm, Hr. fold st' in Hm, Hr.
  split; [| split].
  - now rewrite generate_response_reply, Hc.
  - now rewrite Hm.
  - exact Hr.
Qed.

(** X2. A sequence of calls none of which is made for user [u] leaves the
    stored memory of [u] (history and emotional timeline) untouched,
    whatever the calls of the other users do. *)
Theorem other_users_untouched (u : string) (calls : list Call) (st : AIEngine) :
  calls_of u calls = [] ->
  memory_system (run_calls calls st) !! u = memory_system st !! u.
Proof.
  revert st. induction calls as [|c calls IH]; intros st H; [reflexivity |].
  rewrite calls_of_cons in H.
  destruct (decide (call_user c = u)) as [|Hne]; [discriminate |].
  rewrite run_calls_cons, (IH _ H).
  destruct (generate_response_effect (call_post c) (call_message c) (call_user c) st)
    as (_ & _ & _ & _ & _ & Ho & _).
  apply Ho. congruence.
Qed.

(** X3. No sequence of calls changes the server address, the model name
    or the persona the engine was built with. *)
Theorem configuration_fixed (calls : list Call) (st : AIEngine) :
  ollama_url (run_calls calls st) = ollama_url st
  /\ model (run_calls calls st) = model st
  /\ base_system_prompt (run_calls calls st) = base_system_prompt st.
Proof.
  revert st. induction calls as [|c calls IH]; intros st; [auto |].
  rewrite run_calls_cons.
  destruct (IH (snd (generate_response (call_post c) (call_message c)
                       (call_user c) st))) as (-> & -> & ->).
  destruct (generate_response_effect (call_post c) (call_message c) (call_user c) st)
    as (-> & -> & -> & _). auto.
Qed.


(** X5. Every call appends exactly one record to the emotional timeline of
    its user, and no call touches the timeline of another user: after a
    sequence of calls the timeline of [u] has grown by the number of calls
    made for [u]. *)
Theorem timeline_counts_calls (u : string) (calls : list Call) (st : AIEngine) :
  length (emotional_timeline (user_memory (memory_system (run_calls calls st)) u))
  = length (emotional_timeline (user_memory (memory_system st) u))
    + length (calls_of u calls).
Proof.
  revert st. induction calls as [|c calls IH]; intros st; [simpl; lia |].
  rewrite run_calls_cons, IH, calls_of_cons.
  destruct (generate_response_effect (call_post c) (call_message c) (call_user c) st)
    as (_ & _ & _ & _ & Hm & Ho & _).
  destruct (decide (call_user c = u)) as [<-|Hne].
  - rewrite Hm. cbn [emotional_timeline]. rewrite length_app. simpl. lia.
  - rewrite (user_memory_lookup _ _ _ (Ho u (not_eq_sym Hne))). lia.
Qed.

(** X6. Histories only grow, and by whole exchanges: after any sequence of
    calls the history of [u] is the one before followed by pairs of a user
    turn and a labelled assistant turn, at most one pair per call made for
    [u]. In an engine fresh from [init] every history is made of such
    pairs only. *)
Theorem history_made_of_exchanges (u : string) (calls : list Call) (st : AIEngine) :
  (exists exchanges,
      history (user_memory (memory_system (run_calls calls st)) u)
      = history (user_memory (memory_system st) u) ++ concat (map exchange exchanges)
      /\ length exchanges <= length (calls_of u calls))
  /\ (forall url rag_ctor prompt_file,
         exists exchanges,
           history (user_memory
                      (memory_system (run_calls calls (init url rag_ctor prompt_file))) u)
           = concat (map exchange exchanges)).
Proof.
  assert (forall st : AIEngine,
             exists exchanges,
               history (user_memory (memory_system (run_calls calls st)) u)
               = history (user_memory (memory_system st) u)
                 ++ concat (map exchange exchanges)
               /\ length exchanges <= length (calls_of u calls)) as H.
  { clear st. induction calls as [|c calls IH]; intros st.
    - exists []. simpl. rewrite app_nil_r. auto.
    - rewrite run_calls_cons, calls_of_cons.
      destruct (IH (snd (generate_response (call_post c) (call_message c)
                           (call_user c) st))) as (ex & -> & Hlen).
      destruct (generate_response_effect (call_post c) (call_message c)
                  (call_user c) st) as (_ & _ & _ & _ & Hm & Ho & _).
      destruct (decide (call_user c = u)) as [<-|Hne].
      + rewrite Hm. cbn [history].
        destruct (model_adapter _ _ _ _) as [raw| | |].
        * eexists (_ :: ex). rewrite <- app_assoc. split; [reflexivity |].
          simpl. lia.
        * exists ex. rewrite app_nil_r. split; [reflexivity | simpl; lia].
        * exists ex. rewrite app_nil_r. split; [reflexivity | simpl; lia].
        * exists ex. rewrite app_nil_r. split; [reflexivity | simpl; lia].
      + rewrite (user_memory_lookup _ _ _ (Ho u (not_eq_sym Hne))).
        exists ex. auto. }
  split; [apply H |].
  intros url rag_ctor prompt_file.
  destruct (H (init url rag_ctor prompt_file)) as (ex & Hex & _).
  exists ex. rewrite Hex. reflexivity.
Qed.

(** X7. The retrieval index is append-only and is neither created nor
    dropped: an index that is there keeps all its entries in place and
    gains at most one per call; an absent one stays absent. *)
Theorem index_append_only (calls : list Call) (st : AIEngine) :
  match rag_engine st with
  | Some entries =>
    exists added,
      rag_engine (run_calls calls st) = Some (entries ++ added)
      /\ length added <= length calls
  | None => rag_engine (run_calls calls st) = None
  end.
Proof.
  revert st. induction calls as [|c calls IH]; intros st.
  - change (run_calls [] st) with st.
    destruct (rag_engine st) as [entries|]; [| reflexivity].
    exists []. rewrite app_nil_r. simpl. auto.
  - rewrite run_calls_cons.
    specialize (IH (snd (generate_response (call_post c) (call_message c)
                           (call_user c) st))).
    destruct (generate_response_effect (call_post c) (call_message c)
                (call_user c) st) as (_ & _ & _ & _ & _ & _ & Hr).
    rewrite Hr in IH.
    destruct (rag_engine st) as [entries|].
    + destruct (model_adapter _ _ _ _) as [raw| | |]; cbn in IH;
        destruct IH as (added & -> & Hlen).
      * unfold add_conversation_turn. rewrite <- app_assoc.
        eexists. split; [reflexivity |]. simpl. lia.
      * exists added. split; [reflexivity | simpl; lia].
      * exists added. split; [reflexivity | simpl; lia].
      * exists added. split; [reflexivity | simpl; lia].
    + destruct (model_adapter _ _ _ _); exact IH.
Qed.

(** X8. After a completed call the next prompt for the same user ends with
    the exchange just stored: the utterance, the sanitized reply, then the
    new utterance; in front of them come the system message and at most 4
    older turns. *)
Theorem next_prompt_sees_exchange (post : http_post) (msg uid raw next_msg : string)
    (st : AIEngine) :
  model_adapter post msg uid st = Completion raw ->
  let st' := snd (generate_response post msg uid st) in
  exists system older,
    prompt_of next_msg uid st'
    = system :: older
      ++ [{| role := "user"; content := msg |};
          {| role := "assistant"; content := Think.sanitize raw |};
          {| role := "user"; content := next_msg |}]
    /\ role system = "system"
    /\ older = map turn_message (last_n 4 (history (user_memory (memory_system st) uid))).
Proof.
  intros Hc st'.
  destruct (generate_response_effect post msg uid st)
    as (_ & _ & _ & _ & Hm & _ & _).
  rewrite Hc in Hm. fold st' in Hm.
  unfold prompt_of. rewrite build_prompt_run. cbn [fst].
  rewrite Hm. cbn [history].
  change 6 with (4 + length (exchange (msg, Think.sanitize raw,
                   emotion_value (emotion (classify msg (emotional_intelligence st)))))).
  rewrite last_n_app, map_app. cbn [exchange map turn_message turn_role turn_content].
  eexists _, _. split.
  - rewrite <- app_assoc. reflexivity.
  - split; reflexivity.
Qed.

End EngineEffects.

(* ===================================================================== *)
(** ** More about sanitization *)
(* ===================================================================== *)

Module SanitizeMore.
Import PyStr PyStrFacts StripFacts Think ThinkFacts SanitizeFacts MarkerFacts.

Lemma re_sub_from_length (k : nat) (s : string) :
  String.length (re_sub_from k s) <= String.length s.
Proof.
  revert k. induction s as [|a s IH]; intros k; [simpl; lia |].
  destruct k as [|k].
  - rewrite re_sub_from_0_cons. destruct (think_match (String a s)).
    + specialize (IH (Nat.pred n)). simpl. lia.
    + specialize (IH 0). simpl. lia.
  - specialize (IH k). simpl. lia.
Qed.

Lemma strip_length (s : string) : String.length (strip s) <= String.length s.
Proof.
  destruct (strip_spec s) as ((l & r & E & _) & _).
  rewrite E at 2. rewrite !str_length_app. lia.
Qed.

(** X9. A completion without opening marker loses nothing but the
    whitespace at its two ends. *)
Theorem no_marker_only_trims (raw : string) :
  find think_open raw = None ->
  re_sub_think raw = raw /\ sanitize raw = strip raw.
Proof.
  intros H. unfold sanitize. rewrite (re_sub_no_open _ H). auto.
Qed.

(** X10. Sanitization only deletes: the reply is never longer than the
    completion. *)
Theorem sanitize_never_longer (raw : string) :
  String.length (sanitize raw) <= String.length raw.
Proof.
  unfold sanitize, re_sub_think.
  pose proof (strip_length (re_sub_from 0 raw)).
  pose proof (re_sub_from_length 0 raw). lia.
Qed.

(** X11. A completion that is nothing but whitespace, or nothing but one
    reasoning block with whitespace around it, is sanitized to the empty
    string. *)
Theorem blank_reply (ws1 ws2 body : string) :
  all_space ws1 = true ->
  all_space ws2 = true ->
  find think_close body = None ->
  sanitize ws1 = ""
  /\ sanitize (ws1 +:+ think_open +:+ body +:+ think_close +:+ ws2) = "".
Proof.
  intros H1 H2 Hb.
  assert (forall ws, all_space ws = true -> find think_open ws = None) as Hno.
  { intros ws Hws. rewrite open_head. apply find_not_occurs.
    now apply all_space_no_lt. }
  assert (forall ws, all_space ws = true -> strip ws = "") as Hstrip.
  { intros ws Hws. unfold strip. apply all_space_lstrip in Hws. now rewrite Hws. }
  split.
  - unfold sanitize. rewrite (re_sub_no_open _ (Hno _ H1)). now apply Hstrip.
  - rewrite (sanitize_pair _ _ _ (Hno _ H1) Hb).
    rewrite (re_sub_no_open _ (Hno _ H2)).
    apply Hstrip. now apply all_space_app.
Qed.

(** X12. Sanitization is one pass: markers that only come together when a
    block between them is removed are not looked at again. The text
    [<thi<think>x</think>nk>y] is sanitized to [<think>y] (with the end of
    [y] trimmed), so that a reply can still hold an opening marker, and a
    whole block when [y] holds a closing one. *)
Theorem sanitize_single_pass (x y : string) :
  find think_close x = None ->
  find think_open y = None ->
  sanitize ("<thi" +:+ think_open +:+ x +:+ think_close +:+ "nk>" +:+ y)
  = think_open +:+ rstrip y.
Proof.
  intros Hx Hy.
  rewrite (sanitize_pair "<thi" x ("nk>" +:+ y) eq_refl Hx).
  assert (find think_open ("nk>" +:+ y) = None) as Hpost.
  { rewrite !str_app_cons, str_app_nil_l.
    rewrite !find_cons. simpl. now rewrite Hy. }
  rewrite (re_sub_no_open _ Hpost).
  unfold strip.
  change ("<thi" +:+ "nk>" +:+ y) with ("" +:+ String "<" ("think" +:+ String ">" y)).
  rewrite lstrip_app_plain by (reflexivity || (vm_compute; lia)).
  change (lstrip "" +:+ String "<" ("think" +:+ String ">" y))
    with ("<think" +:+ String ">" y).
  rewrite rstrip_app_plain by (reflexivity || (vm_compute; lia)).
  reflexivity.
Qed.

End SanitizeMore.

(* ===================================================================== *)
(** ** Speech to text *)
(* ===================================================================== *)

Section SpeechToText.
Import STT.



(** X15. Without CUDA the model is never constructed for the device
    [cuda]: what the constructor would do for that device has no bearing
    on the engine, and asking for [cuda] is asking for [cpu] with
    [int8]. *)
Theorem no_cuda_no_cuda_model (model_size device compute_type : string)
    (whisper whisper' : string -> string -> string -> raised WhisperModel) :
  (forall s d c, d <> "cuda" -> whisper s d c = whisper' s d c) ->
  init model_size device compute_type (Done false) whisper
  = init model_size device compute_type (Done false) whisper'
  /\ init model_size "cuda" compute_type (Done false) whisper
     = init model_size "cpu" "int8" (Done false) whisper.
Proof.
  intros H. split; [| reflexivity].
  unfold init. cbn [negb]. rewrite andb_true_r.
  destruct (bool_decide (device = "cuda")) eqn:Hd.
  - rewrite H by discriminate. reflexivity.
  - apply bool_decide_eq_false in Hd. rewrite (H _ _ _ Hd). reflexivity.
Qed.

End SpeechToText.

(* ===================================================================== *)
(** ** The endpoints *)
(* ===================================================================== *)

Section EndpointFacts.
Context {F : PyFloat} {C : Collaborators}.

(** X16. [/api/chat] never answers with an error because the model or
    the speech synthesis failed: it always gives a body with the text and
    the emotion of [generate_response], the engine being left as
    [generate_response] left it; when the synthesis raises, the body just
    has no audio. *)
Theorem chat_always_answers (post : http_post)
    (tts : string -> string -> raised (option string))
    (now timeout_text : string) (request : Main.ChatRequest) (st : AIEngine) :
  exists text emo,
    fst (generate_response post (Main.message request) (Main.user_id request) st)
    = Return (text, emo)
    /\ Main.chat post tts now timeout_text request st
       = (Main.Ok {| Main.response := text;
                     Main.emotion := emotion_value emo;
                     Main.audio_url := match tts text (emotion_value emo) with
                                       | Done url => url
                                       | Raised _ => None
                                       end;
                     Main.timestamp := now |},
          snd (generate_response post (Main.message request) (Main.user_id request) st)).
Proof.
  destruct (generate_response_returns post (Main.message request) (Main.user_id request) st)
    as (text & emo & st' & E).
  exists text, emo. unfold Main.chat. rewrite E. auto.
Qed.

Lemma chat_state (post : http_post)
    (tts : string -> string -> raised (option string))
    (now timeout_text : string) (request : Main.ChatRequest) (st : AIEngine) :
  snd (Main.chat post tts now timeout_text request st)
  = snd (generate_response post (Main.message request) (Main.user_id request) st).
Proof.
  destruct (generate_response_returns post (Main.message request) (Main.user_id request) st)
    as (text & emo & st' & E).
  unfold Main.chat. now rewrite E.
Qed.

(** X22. [/api/memory] only reads: for every user, known or not, and in
    every state it answers without error, with the digests of that
    user's memory and the at most 10 most recent turns, oldest first, and
    leaves the engine as it is. What a completed [/api/chat] stored shows
    up in it: the recent messages of that user end with the utterance
    and the sanitized reply with its label. *)
Theorem memory_endpoint_after_chat (post : http_post)
    (tts : string -> string -> raised (option string))
    (now timeout_text raw : string) (request : Main.ChatRequest) (st : AIEngine) :
  (forall (user_id : string) (st0 : AIEngine),
      Main.get_user_memory timeout_text user_id st0
      = (Main.Ok
           {| Main.memory_user_id := user_id;
              Main.conversation_summary :=
                conversation_digest (user_memory (memory_system st0) user_id);
              Main.emotional_summary :=
                emotional_digest (user_memory (memory_system st0) user_id);
              Main.recent_messages :=
                last_n 10 (history (user_memory (memory_system st0) user_id)) |},
         st0)
      /\ length (last_n 10 (history (user_memory (memory_system st0) user_id))) <= 10
      /\ exists older,
           history (user_memory (memory_system st0) user_id)
           = older ++ last_n 10 (history (user_memory (memory_system st0) user_id)))
  /\ (model_adapter post (Main.message request) (Main.user_id request) st
      = Completion raw ->
      let st' := snd (Main.chat post tts now timeout_text request st) in
      exists body older,
        Main.get_user_memory timeout_text (Main.user_id request) st' = (Main.Ok body, st')
        /\ Main.memory_user_id body = Main.user_id request
        /\ Main.recent_messages body
           = older
             ++ exchange (Main.message request, Think.sanitize raw,
                          emotion_value
                            (emotion
                               (classify (Main.message request)
                                         (emotional_intelligence st))))
        /\ length (Main.recent_messages body) <= 10).
Proof.
  split.
  { intros user_id st0. split; [reflexivity |]. split.
    - rewrite last_n_length. lia.
    - apply last_n_suffix. }
  intros Hc st'. subst st'. rewrite chat_state.
  destruct (generate_response_effect post (Main.message request) (Main.user_id request) st)
    as (_ & _ & _ & _ & Hm & _ & _).
  rewrite Hc in Hm.
  unfold Main.get_user_memory.
  cbv [get_conversation_context get_conversation_summary get_emotional_summary
       mbind M_bind bind ret get].
  eexists _, _. split; [reflexivity |]. cbn [Main.memory_user_id Main.recent_messages].
  split; [reflexivity |].
  rewrite Hm. cbn [history]. split.
  - change 10 with (8 + length (exchange (Main.message request, Think.sanitize raw,
        emotion_value (emotion
                         (classify (Main.message request) (emotional_intelligence st)))))).
    rewrite last_n_app. reflexivity.
  - rewrite last_n_length. lia.
Qed.

End EndpointFacts.

Section TranscribeEndpoint.
Import Main.

(** X17. [/api/transcribe] answers with an error status exactly when one
    of the three file operations raises: opening the temporary file,
    copying the upload into it, or removing it. A missing model or a
    failed decoding comes back as the text with the normal status, and
    the file-not-found answer of [transcribe] cannot occur here, the file
    having just been written. The temporary file is gone at the end
    exactly when all three operations went through: after a failed copy
    or a failed removal it stays, after a failed opening it was never
    created. *)
Theorem transcribe_audio_cleans_up (stt_engine : STT.STTEngine) (now text : string)
    (copy remove : raised unit) (fs : gset string) :
  let temp := "temp_audio_" +:+ now +:+ ".wav" in
  transcribe_audio stt_engine now (Done tt) (Done tt) (Done tt) fs
  = (Ok (match STT.model stt_engine with
         | None => "Error: Modelo Whisper no cargado."
         | Some m =>
           match STT.segments_text m temp with
           | Done segments => PyStr.strip (PyStr.join " " segments)
           | Raised text => "Error transcribiendo: " +:+ text
           end
         end),
     fs ∖ {[temp]})
  /\ (temp ∉ snd (transcribe_audio stt_engine now (Done tt) (Done tt) (Done tt) fs))
  /\ transcribe_audio stt_engine now (Done tt) (Done tt) (Raised text) fs
     = (HTTPException 500 ("Error transcribiendo audio: " +:+ text), {[temp]} ∪ fs)
  /\ transcribe_audio stt_engine now (Done tt) (Raised text) remove fs
     = (HTTPException 500 ("Error transcribiendo audio: " +:+ text), {[temp]} ∪ fs)
  /\ transcribe_audio stt_engine now (Raised text) copy remove fs
     = (HTTPException 500 ("Error transcribiendo audio: " +:+ text), fs).
Proof.
  intros temp. unfold transcribe_audio. fold temp. cbn [snd].
  split; [| split; [| split; [| split]]]; try reflexivity.
  - unfold STT.transcribe.
    assert (bool_decide (temp ∈ ({[temp]} ∪ fs : gset string)) = true) as ->.
    { apply bool_decide_eq_true_2, elem_of_union_l, elem_of_singleton. reflexivity. }
    assert (({[temp]} ∪ fs) ∖ {[temp]} = fs ∖ {[temp]}) as ->.
    { apply set_eq. intros x.
      rewrite !elem_of_difference, elem_of_union, elem_of_singleton. tauto. }
    destruct (STT.model stt_engine); reflexivity.
  - rewrite elem_of_difference, elem_of_singleton. tauto.
Qed.

End TranscribeEndpoint.

(* ===================================================================== *)
(** ** The wake word *)
(* ===================================================================== *)

Section WakeWordFacts.
Import WakeWord Main.

Lemma last_cons_default {A} (d x : A) (l : list A) :
  default d (last (x :: l)) = default x (last l).
Proof.
  revert d x. induction l as [|y l IH]; intros d x; [reflexivity |].
  rewrite last_cons_cons. now rewrite !IH.
Qed.

(** Starting and stopping keep the flag and the thread in step: while
    the engine listens it holds its thread, and the events of any further
    use never start a second listener. *)
Lemma run_keeps_one_listener (ops : list bool) (self : WakeWordEngine) :
  (is_listening self = true -> listening_thread self = Some tt) ->
  single_listener (is_listening self) (snd (run ops self)) = true
  /\ is_listening (fst (run ops self)) = default (is_listening self) (last ops).
Proof.
  revert self. induction ops as [|op ops IH]; intros self Hinv; [auto |].
  rewrite last_cons_default. cbn [run].
  destruct op.
  - unfold start_listening. destruct (is_listening self) eqn:Hl.
    + destruct (run ops self) as [self' events] eqn:E. cbn [fst snd app].
      specialize (IH self (fun _ => Hinv eq_refl)). rewrite E, Hl in IH. exact IH.
    + destruct (run ops {| is_listening := true; listening_thread := Some tt |})
        as [self' events] eqn:E. cbn [fst snd app single_listener negb andb].
      specialize (IH {| is_listening := true; listening_thread := Some tt |}
                     (fun _ => eq_refl)).
      rewrite E in IH. exact IH.
  - unfold stop_listening.
    destruct (run ops {| is_listening := false;
                         listening_thread := listening_thread self |})
      as [self' events] eqn:E. cbn [fst snd].
    specialize (IH {| is_listening := false;
                      listening_thread := listening_thread self |}).
    rewrite E in IH. cbn [is_listening fst snd] in IH.
    destruct IH as [IH1 IH2]; [discriminate |].
    split; [| exact IH2].
    destruct (listening_thread self) eqn:Ht; cbn [app single_listener]; [exact IH1 |].
    destruct (is_listening self); [| exact IH1].
    specialize (Hinv eq_refl). discriminate.
Qed.

(** X18. However [start_listening] and [stop_listening] are called on a
    new engine, no listener thread is started while an earlier one has
    not been joined (starting twice starts one thread), and the engine
    listens exactly when the last call was a start. *)
Theorem one_listener_thread (ops : list bool) :
  init (Done tt) = Done {| is_listening := false; listening_thread := None |}
  /\ single_listener false
       (snd (run ops {| is_listening := false; listening_thread := None |})) = true
  /\ is_listening (fst (run ops {| is_listening := false; listening_thread := None |}))
     = default false (last ops).
Proof.
  split; [reflexivity |].
  apply (run_keeps_one_listener ops {| is_listening := false; listening_thread := None |}).
  discriminate.
Qed.

(** One request keeps the attribute assigned and the thread in step. *)
Lemma serve_step (request : wake_request) (fields : WakeFields) :
  match wake_word_engine fields with
  | Attr (Some w) => is_listening w = true -> listening_thread w = Some tt
  | Attr None => True
  | Unset => False
  end ->
  exists body fields' events,
    serve request fields = (Ok body, fields', events)
    /\ match wake_word_engine fields' with
       | Attr (Some w) => is_listening w = true -> listening_thread w = Some tt
       | Attr None => True
       | Unset => False
       end
    /\ forall rest,
        single_listener
          match wake_word_engine fields' with
          | Attr (Some w) => is_listening w
          | _ => false
          end rest = true ->
        single_listener
          match wake_word_engine fields with
          | Attr (Some w) => is_listening w
          | _ => false
          end (events ++ rest) = true.
Proof.
  intros Hinv.
  destruct fields as [enabled [|[w|]]]; cbn in Hinv; [contradiction | |].
  - destruct request; cbn;
      unfold enable_wake_word, disable_wake_word, get_wake_word_status,
        enable_wake_word_detection, disable_wake_word_detection, when_enabled;
      cbn [wake_word_enabled wake_word_engine].
    + destruct enabled; [| eauto 10].
      unfold start_listening. destruct (is_listening w) eqn:Hl.
      * eexists _, _, _. split; [reflexivity |]. cbn.
        split; [intros _; now apply Hinv |]. intros rest. now rewrite Hl.
      * eexists _, _, _. split; [reflexivity |]. cbn. auto.
    + destruct enabled; [| eauto 10].
      unfold stop_listening.
      eexists _, _, _. split; [reflexivity |]. cbn.
      split; [discriminate |]. intros rest Hrest.
      destruct (listening_thread w) eqn:Ht; cbn; [exact Hrest |].
      destruct (is_listening w); [| exact Hrest].
      specialize (Hinv eq_refl). discriminate.
    + eauto 10.
  - destruct request; cbn;
      unfold enable_wake_word, disable_wake_word, get_wake_word_status,
        enable_wake_word_detection, disable_wake_word_detection, when_enabled;
      cbn [wake_word_enabled wake_word_engine];
      destruct enabled; eauto 10.
Qed.

(** The thread that runs, as the fields tell. *)
Lemma serve_all_ok (requests : list wake_request) (fields : WakeFields) :
  match wake_word_engine fields with
  | Attr (Some w) => is_listening w = true -> listening_thread w = Some tt
  | Attr None => True
  | Unset => False
  end ->
  Forall (fun answer => exists body, answer = Ok body)
         (fst (fst (serve_all requests fields)))
  /\ single_listener
       match wake_word_engine fields with
       | Attr (Some w) => is_listening w
       | _ => false
       end
       (snd (serve_all requests fields)) = true.
Proof.
  revert fields. induction requests as [|request requests IH]; intros fields Hinv.
  - cbn. auto.
  - cbn [serve_all].
    destruct (serve_step request fields Hinv)
      as (body & fields' & events & E & Hinv' & Hev).
    rewrite E. destruct (IH fields' Hinv') as [IH1 IH2].
    destruct (serve_all requests fields') as [[answers fields''] events'].
    cbn [fst snd] in *. split.
    + constructor; eauto.
    + now apply Hev.
Qed.

(** X19. For the engine [main.py] builds ([enable_wake_word=True]),
    whether the microphone could be set up or not, no sequence of
    requests to the three wake-word endpoints is ever answered with an
    error, and across all of them at most one listener thread runs at a
    time. *)
Theorem wake_endpoints_never_fail (microphone : raised unit)
    (requests : list wake_request) :
  Forall (fun answer => exists body, answer = Ok body)
         (fst (fst (serve_all requests (init_fields true microphone))))
  /\ single_listener false (snd (serve_all requests (init_fields true microphone)))
     = true.
Proof.
  destruct microphone as [[]|text].
  - apply (serve_all_ok requests (init_fields true (Done tt))). cbn. discriminate.
  - apply (serve_all_ok requests (init_fields true (Raised text))). exact I.
Qed.

(** X20. When the microphone could not be set up, the enable endpoint
    still answers with its success message, although nothing is enabled:
    no thread is ever started, the fields never change, and every status
    request reports disabled and not listening. *)
Theorem enable_succeeds_without_engine (text : string) (requests : list wake_request) :
  serve_all requests (init_fields true (Raised text))
  = (map (fun request =>
            match request with
            | Enable => Ok (Message "success" "Detección de palabra clave habilitada")
            | Disable => Ok (Message "success" "Detección de palabra clave deshabilitada")
            | Status => Ok (StatusBody {| enabled := false; listening := false |})
            end) requests,
     {| wake_word_enabled := false; wake_word_engine := Attr None |},
     []).
Proof.
  change (init_fields true (Raised text))
    with {| wake_word_enabled := false; wake_word_engine := Attr None |}.
  induction requests as [|request requests IH]; [reflexivity |].
  cbn [serve_all map]. destruct request; cbn; rewrite IH; reflexivity.
Qed.

(** X21. An engine built with the default [enable_wake_word=False] never
    gets its [wake_word_engine] attribute. Enabling and disabling still
    return normally, the flag being tested first, and start no thread;
    the status endpoint, which reads the attribute, answers every request
    with status 500. *)
Theorem status_fails_without_attribute (microphone : raised unit)
    (requests : list wake_request) :
  serve_all requests (init_fields false microphone)
  = (map (fun request =>
            match request with
            | Enable => Ok (Message "success" "Detección de palabra clave habilitada")
            | Disable => Ok (Message "success" "Detección de palabra clave deshabilitada")
            | Status =>
              HTTPException 500
                "Error obteniendo estado: 'AIEngine' object has no attribute 'wake_word_engine'"
            end) requests,
     {| wake_word_enabled := false; wake_word_engine := Unset |},
     []).
Proof.
  change (init_fields false microphone)
    with {| wake_word_enabled := false; wake_word_engine := Unset |}.
  induction requests as [|request requests IH]; [reflexivity |].
  cbn [serve_all map]. destruct request; cbn; rewrite IH; reflexivity.
Qed.

End WakeWordFacts.

(* ===================================================================== *)
(** ** The further properties at concrete inputs *)
(* ===================================================================== *)

Lemma completed_call_persists_witness :
  Demo.adapter (Demo.post_reply DemoMore.greeting) "Hola" "u1" Demo.ready
  = Completion DemoMore.greeting
  /\ fst (Demo.call (Demo.post_reply DemoMore.greeting) "Hola" "u1" Demo.ready)
     = Return (Think.sanitize DemoMore.greeting,
               emotion (Demo.classify_demo "Hola" (emotional_intelligence Demo.ready))).
Proof.
  split; [reflexivity |].
  apply (@completed_call_persists Demo.hundredths Demo.collaborators
           (Demo.post_reply DemoMore.greeting) "Hola" "u1" DemoMore.greeting Demo.ready).
  reflexivity.
Defined.

Lemma other_users_untouched_witness :
  calls_of "u2" [DemoMore.greeting_call; DemoMore.greeting_call] = []
  /\ memory_system (DemoMore.run [DemoMore.greeting_call; DemoMore.greeting_call]
                      Demo.talked) !! "u2"
     = memory_system Demo.talked !! "u2".
Proof.
  split; [reflexivity |].
  apply (@other_users_untouched Demo.hundredths Demo.collaborators "u2"
           [DemoMore.greeting_call; DemoMore.greeting_call] Demo.talked).
  reflexivity.
Defined.

Lemma next_prompt_sees_exchange_witness :
  Demo.adapter (Demo.post_reply DemoMore.greeting) "Hola" "u1" Demo.talked
  = Completion DemoMore.greeting
  /\ exists system older,
      Demo.prompt "gracias" "u1"
        (snd (Demo.call (Demo.post_reply DemoMore.greeting) "Hola" "u1" Demo.talked))
      = system :: older
        ++ [{| role := "user"; content := "Hola" |};
            {| role := "assistant"; content := Think.sanitize DemoMore.greeting |};
            {| role := "user"; content := "gracias" |}]
      /\ role system = "system"
      /\ older = map turn_message
                     (last_n 4 (Demo.history_of "u1" Demo.talked)).
Proof.
  split; [reflexivity |].
  apply (@next_prompt_sees_exchange Demo.hundredths Demo.collaborators
           (Demo.post_reply DemoMore.greeting) "Hola" "u1" DemoMore.greeting "gracias"
           Demo.talked).
  reflexivity.
Defined.

Lemma no_marker_only_trims_witness :
  PyStr.find Think.think_open "  Hola, Mijin. </think> " = None
  /\ Think.sanitize "  Hola, Mijin. </think> " = PyStr.strip "  Hola, Mijin. </think> ".
Proof.
  split; [reflexivity |].
  apply (SanitizeMore.no_marker_only_trims "  Hola, Mijin. </think> ").
  reflexivity.
Defined.

Lemma blank_reply_witness :
  PyStr.all_space (" " +:+ PyStr.nl) = true
  /\ PyStr.all_space "  " = true
  /\ PyStr.find Think.think_close "pensando" = None
  /\ Think.sanitize
       ((" " +:+ PyStr.nl) +:+ Think.think_open +:+ "pensando" +:+ Think.think_close
        +:+ "  ") = "".
Proof.
  split; [reflexivity |]. split; [reflexivity |]. split; [reflexivity |].
  apply (SanitizeMore.blank_reply (" " +:+ PyStr.nl) "  " "pensando"); reflexivity.
Defined.

Lemma sanitize_single_pass_witness :
  PyStr.find Think.think_close "a" = None
  /\ PyStr.find Think.think_open "secreto</think> " = None
  /\ Think.sanitize
       ("<thi" +:+ Think.think_open +:+ "a" +:+ Think.think_close +:+ "nk>"
        +:+ "secreto</think> ")
     = Think.think_open +:+ PyStr.rstrip "secreto</think> ".
Proof.
  split; [reflexivity |]. split; [reflexivity |].
  apply (SanitizeMore.sanitize_single_pass "a" "secreto</think> "); reflexivity.
Defined.


Lemma no_cuda_no_cuda_model_witness :
  (forall s d c, d <> "cuda" -> DemoMore.whisper_cpu_only s d c = DemoMore.whisper_any s d c)
  /\ STT.init "base" "cuda" "float16" (Done false) DemoMore.whisper_cpu_only
     = STT.init "base" "cuda" "float16" (Done false) DemoMore.whisper_any.
Proof.
  assert (forall s d c, d <> "cuda" ->
            DemoMore.whisper_cpu_only s d c = DemoMore.whisper_any s d c) as H.
  { intros s d c Hd. unfold DemoMore.whisper_cpu_only, DemoMore.whisper_any.
    now rewrite (bool_decide_eq_false_2 _ Hd). }
  split; [exact H |].
  apply (no_cuda_no_cuda_model "base" "cuda" "float16"
           DemoMore.whisper_cpu_only DemoMore.whisper_any).
  exact H.
Defined.

Lemma memory_endpoint_after_chat_witness :
  Demo.adapter (Demo.post_reply DemoMore.greeting) "Hola" "u1" Demo.ready
  = Completion DemoMore.greeting
  /\ exists body older,
      @Main.get_user_memory Demo.hundredths Demo.collaborators "timed out" "u1"
        DemoMore.after_chat
      = (Main.Ok body, DemoMore.after_chat)
      /\ Main.memory_user_id body = "u1"
      /\ Main.recent_messages body
         = older ++ exchange ("Hola", Think.sanitize DemoMore.greeting, "neutral")
      /\ length (Main.recent_messages body) <= 10.
Proof.
  split; [reflexivity |].
  apply (proj2 (@memory_endpoint_after_chat Demo.hundredths Demo.collaborators
                  (Demo.post_reply DemoMore.greeting) DemoMore.tts_down
                  "2026-01-01T00:00:00" "timed out" DemoMore.greeting DemoMore.hola
                  Demo.ready)).
  reflexivity.
Defined.
